(** * Form 4 crawl-and-extract engine: a shallow embedding

    The functions of [src/data/acquisition/utils.py] as Rocq functions:
    [get_urls], [find_index_file], [get_table_rows], [get_form_4_url],
    [extract_data], [parse_xml_url] and [load_data].

    Python values that the code inspects dynamically (the tree returned by
    [xmltodict.parse]) are a tagged type [value]; raised exceptions are the
    [Err] branch of [result]; the network and the two parsers are parameters
    of the functions that fetch ([Section Archive]).  A data frame is the
    list of its rows.  The [Log.info] call of [load_data] has no effect on
    the result and is left out; the values of [cik_dict] are taken after
    [str]. *)

From stdpp Require Import base option list strings gmap.
From Stdlib Require Import Ascii String.

Set Warnings "-register-all".

(** ** Exceptions and results *)

(** The exception classes the code can raise. *)
Inductive fault : Type :=
  | KeyError            (* d[k] on a dict without key k *)
  | TypeError           (* None[k], "s"[k], str + None, k in None *)
  | IndexError          (* l[i] out of range *)
  | AttributeError      (* None.find_all, None.get, None.split *)
  | UnboundLocalError   (* a local read before any assignment *)
  | RequestException    (* requests.get could not complete *)
  | ExpatError.         (* xmltodict.parse on malformed XML *)

Inductive result (A : Type) : Type :=
  | Ok (a : A)
  | Err (e : fault).
Arguments Ok {A} a.
Arguments Err {A} e.

Definition bind {A B} (r : result A) (k : A → result B) : result B :=
  match r with
  | Ok a => k a
  | Err e => Err e
  end.

Notation "'let*' x ':=' r 'in' k" := (bind r (λ x, k))
  (at level 10, x name, r at level 100, k at level 200).

Definition is_ok {A} (r : result A) : bool :=
  match r with Ok _ => true | Err _ => false end.

(** [try: x = r  except: x = dflt] with a bare [except]. *)
Definition try_except {A} (r : result A) (dflt : A) : A :=
  match r with Ok a => a | Err _ => dflt end.

(** [for x in xs: acc = body(acc, x)], leaving at the first exception. *)
Fixpoint for_each {A S} (body : S → A → result S) (xs : list A) (acc : S)
  : result S :=
  match xs with
  | [] => Ok acc
  | x :: xs' => let* acc' := body acc x in for_each body xs' acc'
  end.

(** ** Python string operations *)

(** [needle in hay] on two [str]. *)
Fixpoint str_in (needle hay : string) : bool :=
  String.prefix needle hay ||
  match hay with
  | EmptyString => false
  | String _ hay' => str_in needle hay'
  end.

(** [s.split(sep)] for a one-character separator: never empty. *)
Fixpoint split (sep : ascii) (s : string) : list string :=
  match s with
  | EmptyString => [EmptyString]
  | String c s' =>
      if Ascii.eqb c sep then EmptyString :: split sep s'
      else match split sep s' with
           | seg :: segs => String c seg :: segs
           | [] => [String c EmptyString]
           end
  end.

(** [l[i]] for a literal index [i >= 0]. *)
Definition index {A} (l : list A) (i : nat) : result A :=
  match l !! i with
  | Some x => Ok x
  | None => Err IndexError
  end.

(** [l[-1]]. *)
Definition index_last {A} (l : list A) : result A :=
  match reverse l with
  | x :: _ => Ok x
  | [] => Err IndexError
  end.

(** [a + b] where [a] is a [str] and [b] a [str] or [None]. *)
Definition str_add (a : string) (b : option string) : result string :=
  match b with
  | Some s => Ok (a +:+ s)
  | None => Err TypeError
  end.

(** ** The tree [xmltodict.parse] returns *)

Inductive value : Type :=
  | VNone
  | VStr (s : string)
  | VList (l : list value)
  | VDict (d : gmap string value).

(** [d[k]] for a [str] key: only a dict can be subscripted by one. *)
Definition get_item (v : value) (k : string) : result value :=
  match v with
  | VDict d => match d !! k with
               | Some x => Ok x
               | None => Err KeyError
               end
  | VNone | VStr _ | VList _ => Err TypeError
  end.

(** [v[k1][k2]...[kn]], left to right. *)
Definition get_path (v : value) (ks : list string) : result value :=
  for_each get_item ks v.

(** [v == s] for a [str] s. *)
Definition eq_str (v : value) (s : string) : bool :=
  match v with
  | VStr s' => String.eqb s' s
  | VNone | VList _ | VDict _ => false
  end.

(** [v != None]. *)
Definition not_none (v : value) : bool :=
  match v with
  | VNone => false
  | VStr _ | VList _ | VDict _ => true
  end.

(** [k in v] for a [str] k: substring of a str, element of a list, key of a
    dict; [None] is not iterable. *)
Definition py_in (k : string) (v : value) : result bool :=
  match v with
  | VNone => Err TypeError
  | VStr s => Ok (str_in k s)
  | VList l => Ok (existsb (λ x, eq_str x k) l)
  | VDict d => Ok (bool_decide (is_Some (d !! k)))
  end.

(** [type(v) == list]. *)
Definition is_list (v : value) : bool :=
  match v with
  | VList _ => true
  | VNone | VStr _ | VDict _ => false
  end.

(** [type(v) != list] then [v = [v]]. *)
Definition as_list (v : value) : list value :=
  match v with
  | VList l => l
  | VNone | VStr _ | VDict _ => [v]
  end.

(** ** The extractor *)

(** One row of the data frame [extract_data] builds. *)
Record transaction_record : Type := TransactionRecord {
  issuerCik : value;
  issuerName : value;
  issuerTradingSymbol : value;
  securityTitle : value;
  transactionDate : value;
  transactionShares : value;
  transactionPricePerShare : value;
  directOrIndirectOwnership : value;
  derivative_type : string
}.

(** A data frame is the list of its rows: [pd.DataFrame()] is [[]],
    [df.append(row, ignore_index=True)] is [df ++ [row]] and
    [pd.concat([a, b], ignore_index=True)] is [a ++ b]. *)
Abbreviation data_frame := (list transaction_record).

(** The test of the [if] at lines 238-239; [and] does not evaluate its
    right operand when the left one is false. *)
Definition emission_filter (data derivative_data : value) (cik_name : string)
  : result bool :=
  let* title := get_path derivative_data ["securityTitle"; "value"] in
  let* has := py_in "Common Stock" title in
  if has then
    let* symbol := get_path data ["ownershipDocument"; "issuer"; "issuerTradingSymbol"] in
    Ok (eq_str symbol cik_name)
  else Ok false.

(** Lines 240-243. *)
Definition read_price (derivative_data : value) : value :=
  try_except
    (get_path derivative_data
       ["transactionAmounts"; "transactionPricePerShare"; "value"])
    VNone.

(** Lines 246-256: the fields are read in the order of the dict display. *)
Definition make_record (data derivative_data : value) (price : value)
    (kind : string) : result transaction_record :=
  let* cik := get_path data ["ownershipDocument"; "issuer"; "issuerCik"] in
  let* name := get_path data ["ownershipDocument"; "issuer"; "issuerName"] in
  let* symbol := get_path data ["ownershipDocument"; "issuer"; "issuerTradingSymbol"] in
  let* title := get_path derivative_data ["securityTitle"; "value"] in
  let* date := get_path derivative_data ["transactionDate"; "value"] in
  let* shares := get_path derivative_data
             ["transactionAmounts"; "transactionShares"; "value"] in
  let* nature := get_path derivative_data
             ["ownershipNature"; "directOrIndirectOwnership"; "value"] in
  Ok (TransactionRecord cik name symbol title date shares price nature kind).

(** The body of the [for] at line 237. *)
Definition extract_step (data : value) (kind cik_name : string)
    (data_df : data_frame) (derivative_data : value) : result data_frame :=
  let* pass := emission_filter data derivative_data cik_name in
  if pass then
    let price := read_price derivative_data in
    let* row := make_record data derivative_data price kind in
    Ok (data_df ++ [row])
  else Ok data_df.

(** Lines 224-233: [inl df] is the early [return df]; otherwise the local
    [derivatives_data], which stays unbound ([None]) when [kind] is neither
    of the two table names. *)
Definition select_transactions (data : value) (kind : string)
    (data_df : data_frame) : result (data_frame + option value) :=
  if String.eqb kind "nonDerivativeTable" then
    let* table := get_path data ["ownershipDocument"; kind] in
    let* has := py_in "nonDerivativeTransaction" table in
    if negb has then Ok (inl data_df)
    else
      let* v := get_path data ["ownershipDocument"; kind; "nonDerivativeTransaction"] in
      Ok (inr (Some v))
  else if String.eqb kind "derivativeTable" then
    let* table := get_path data ["ownershipDocument"; kind] in
    let* has := py_in "derivativeTransaction" table in
    if negb has then Ok (inl data_df)
    else
      let* v := get_path data ["ownershipDocument"; kind; "derivativeTransaction"] in
      Ok (inr (Some v))
  else Ok (inr None).

(** Reading a local variable. *)
Definition read_local {A} (x : option A) : result A :=
  match x with
  | Some a => Ok a
  | None => Err UnboundLocalError
  end.

(** The test of the [if] at line 223. *)
Definition table_present (data : value) (kind : string) : result bool :=
  let* doc := get_path data ["ownershipDocument"] in
  let* has := py_in kind doc in
  if has then
    let* table := get_path data ["ownershipDocument"; kind] in
    Ok (not_none table)
  else Ok false.

Definition extract_data (data : value) (kind cik_name : string)
  : result data_frame :=
  let data_df : data_frame := [] in
  let* present := table_present data kind in
  if present then
    let* sel := select_transactions data kind data_df in
    match sel with
    | inl df => Ok df
    | inr local =>
        let* derivatives_data := read_local local in
        for_each (extract_step data kind cik_name)
                 (as_list derivatives_data) data_df
    end
  else Ok data_df.

(** ** What the code reads of a parsed HTML page *)

(** An [a] element: [a.get('href')] is [None] without the attribute. *)
Record anchor : Type := Anchor { href : option string }.

(** A [td] element: its [.text] and its [.find('a')]. *)
Record td : Type := Td { text : string; find_a : option anchor }.

(** A [tr] element: its [.find_all('td')]. *)
Record tr : Type := Tr { find_all_td : list td }.

(** A [table] element: its [.find_all('a')] and [.find_all('tr')], both in
    document order. *)
Record table : Type := Table { find_all_a : list anchor; find_all_tr : list tr }.

(** A parsed page: [soup.find('table')], the first table if there is one. *)
Record soup : Type := Soup { find_table : option table }.

(** [x.attr] where [x] may be [None]. *)
Definition attr {A} (x : option A) : result A :=
  match x with
  | Some a => Ok a
  | None => Err AttributeError
  end.

(** [find_index_file]: lines 113-115; falling off the end returns [None]. *)
Fixpoint find_index_file (url_list : list (option string))
  : result (option string) :=
  match url_list with
  | [] => Ok None
  | url :: rest =>
      let* u := attr url in
      let* seg := index_last (split "-" u) in
      if String.eqb "index.html" seg then Ok url
      else find_index_file rest
  end.

(** The test of the [if] at line 165; [or] and [and] evaluate their right
    operand only when the left one does not decide. *)
Definition form_4_row (col_list : list td) : result bool :=
  let* c1 := index col_list 1 in
  let* lhs :=
    if str_in "FORM 4" (text c1) then Ok true
    else let* c2 := index col_list 2 in Ok (str_in "form4" (text c2)) in
  if lhs then
    let* c2 := index col_list 2 in
    let* seg := index_last (split "." (text c2)) in
    Ok (String.eqb seg "xml")
  else Ok false.

(** Lines 163-168. *)
Fixpoint scan_rows (table_rows_list : list tr) : result (option string) :=
  match table_rows_list with
  | [] => Ok None
  | row :: rest =>
      let col_list := find_all_td row in
      let* hit := form_4_row col_list in
      if hit then
        let* c2 := index col_list 2 in
        let* a := attr (find_a c2) in
        Ok (href a)
      else scan_rows rest
  end.

Section Archive.

(** The outside world: the body a GET yields and the two parsers. *)
Context {content : Type}.
Variable requests_get : string → gmap string string → result content.
Variable BeautifulSoup : content → soup.
Variable xmltodict_parse : content → result value.

Definition get_urls (url : string) (headers : gmap string string)
  : result (list (option string)) :=
  let* html_page := requests_get url headers in
  let soup := BeautifulSoup html_page in
  let* tbl := attr (find_table soup) in
  Ok (map href (find_all_a tbl)).

Definition get_table_rows (url : string) (headers : gmap string string)
  : result (list tr) :=
  let* html_page := requests_get url headers in
  let soup := BeautifulSoup html_page in
  let* tbl := attr (find_table soup) in
  Ok (drop 1 (find_all_tr tbl)).

Definition get_form_4_url (url : string) (headers : gmap string string)
  : result (option string) :=
  let* table_rows_list := get_table_rows url headers in
  scan_rows table_rows_list.

Definition parse_xml_url (url : string) (headers : gmap string string)
    (cik_name : string) : result data_frame :=
  let* xml_page := requests_get url headers in
  let* data := xmltodict_parse xml_page in
  let* derivative_data_df := extract_data data "derivativeTable" cik_name in
  let* non_derivative_data_df :=
    extract_data data "nonDerivativeTable" cik_name in
  Ok (derivative_data_df ++ non_derivative_data_df).

(** The body of the inner [for] of [load_data], lines 49-68. *)
Definition load_folder (base_url : string) (headers : gmap string string)
    (cik_name : string) (final_data_df : data_frame)
    (folder_url : option string) : result data_frame :=
  let* url := str_add base_url folder_url in
  let* file_url_list := get_urls url headers in
  let* index_file_url := find_index_file file_url_list in
  let* url := str_add base_url index_file_url in
  let* xml_url := get_form_4_url url headers in
  match xml_url with
  | Some x =>
      let* data_df := parse_xml_url (base_url +:+ x) headers cik_name in
      Ok (data_df ++ final_data_df)
  | None => Ok final_data_df
  end.

(** The body of the outer [for], lines 43-68; [cik] is [str(cik)]. *)
Definition load_entity (base_url extend_url : string)
    (headers : gmap string string) (final_data_df : data_frame)
    (entry : string * string) : result data_frame :=
  let '(cik_name, cik) := entry in
  let* folder_url_list :=
    get_urls ((base_url +:+ extend_url) +:+ cik) headers in
  for_each (load_folder base_url headers cik_name) folder_url_list
           final_data_df.

(** [cik_dict.items()] in insertion order. *)
Definition load_data (cik_dict : list (string * string))
    (base_url extend_url : string) (headers : gmap string string)
  : result data_frame :=
  let final_data_df : data_frame := [] in
  for_each (load_entity base_url extend_url headers) cik_dict final_data_df.

End Archive.

(** ** Vocabulary of the statements *)

(** [s.split(sep)[-1]]: the list [split] returns has a last element. *)
Definition last_segment (sep : ascii) (s : string) : string :=
  default EmptyString (last (split sep s)).

(** [sep.join(segs)], the inverse of [split]. *)
Fixpoint join (sep : ascii) (segs : list string) : string :=
  match segs with
  | [] => EmptyString
  | [seg] => seg
  | seg :: rest => seg +:+ String sep (join sep rest)
  end.

(** [sep] does not occur in [s]. *)
Definition sep_free (sep : ascii) (s : string) : Prop :=
  str_in (String sep EmptyString) s = false.

(** The index rule: split on [-], the last segment is [index.html]. *)
Definition is_index_link (url : string) : bool :=
  String.eqb (last_segment "-" url) "index.html".

(** [l] with [x] as its first element satisfying [P]. *)
Definition first_match {A} (P : A → bool) (l : list A) (x : A) : Prop :=
  ∃ pre post, l = pre ++ x :: post ∧ P x = true ∧ Forall (λ y, P y = false) pre.

(** The row test as the specification words it: the form-type label
    (cell 1) equals "FORM 4" or the description label (cell 2) contains
    "form4", and the text of the document cell (cell 2) split on [.] ends
    with "xml". *)
Definition form_4_row_as_stated (col_list : list td) : bool :=
  match col_list !! 1, col_list !! 2 with
  | Some c1, Some c2 =>
      (String.eqb (text c1) "FORM 4" || str_in "form4" (text c2))
      && String.eqb (last_segment "." (text c2)) "xml"
  | _, _ => false
  end.

(** The row test with containment in place of equality on cell 1. *)
Definition form_4_row_rule (col_list : list td) : bool :=
  match col_list !! 1, col_list !! 2 with
  | Some c1, Some c2 =>
      (str_in "FORM 4" (text c1) || str_in "form4" (text c2))
      && String.eqb (last_segment "." (text c2)) "xml"
  | _, _ => false
  end.

(** The anchor target of the document cell of a row. *)
Definition document_link (col_list : list td) : option string :=
  match col_list !! 2 with
  | Some c2 => match find_a c2 with
               | Some a => href a
               | None => None
               end
  | None => None
  end.

(** A row the scan gets through: it has a cell 2, and an anchor in it when
    the row passes the test. *)
Definition scannable (row : tr) : Prop :=
  ∃ c2, find_all_td row !! 2 = Some c2
        ∧ (form_4_row_rule (find_all_td row) = true → is_Some (find_a c2)).

(** The two table names [extract_data] is called with (lines 196, 198). *)
Definition is_table_kind (kind : string) : Prop :=
  kind = "derivativeTable" ∨ kind = "nonDerivativeTable".

(** The transaction-list key that goes with a table name. *)
Definition transaction_key (kind : string) : string :=
  if String.eqb kind "nonDerivativeTable" then "nonDerivativeTransaction"
  else "derivativeTransaction".

(** Where the price of a transaction entry lives. *)
Definition price_path : list string :=
  ["transactionAmounts"; "transactionPricePerShare"; "value"].

(** [r] is the row built from entry [d], which passed the filter. *)
Definition emitted_from (data : value) (kind cik_name : string)
    (d : value) (r : transaction_record) : Prop :=
  emission_filter data d cik_name = Ok true
  ∧ make_record data d (read_price d) kind = Ok r.

(** Where the transaction list of a table lives. *)
Definition transactions_path (kind : string) : list string :=
  ["ownershipDocument"; kind; transaction_key kind].

(** The fields of an entry, and of the issuer block, that the row is built
    from besides the price (lines 247-254). *)
Definition entry_fields : list (list string) :=
  [ ["securityTitle"; "value"];
    ["transactionDate"; "value"];
    ["transactionAmounts"; "transactionShares"; "value"];
    ["ownershipNature"; "directOrIndirectOwnership"; "value"] ].

Definition issuer_fields : list (list string) :=
  [ ["ownershipDocument"; "issuer"; "issuerCik"];
    ["ownershipDocument"; "issuer"; "issuerName"];
    ["ownershipDocument"; "issuer"; "issuerTradingSymbol"] ].

(** [v[k1]...[kn]] can be read. *)
Definition readable (v : value) (path : list string) : Prop :=
  is_ok (get_path v path) = true.

Definition unreadable (v : value) (path : list string) : Prop :=
  is_ok (get_path v path) = false.

(** An entry the loop body gets through: the filter evaluates and, when it
    passes, the fields of [issuer_fields] and [entry_fields] can be read.
    Nothing is asked of the price. *)
Definition processable (data : value) (cik_name : string) (d : value) : Prop :=
  emission_filter data d cik_name = Ok false
  ∨ (emission_filter data d cik_name = Ok true
     ∧ Forall (readable data) issuer_fields
     ∧ Forall (readable d) entry_fields).

(** The faults a subscript [d[k]] raises. *)
Definition lookup_fault (e : fault) : Prop := e = KeyError ∨ e = TypeError.

(** The document [VDict top] with the transaction list of table [kind]
    replaced by [v]. *)
Definition with_transactions (top doc t : gmap string value) (kind : string)
    (v : value) : value :=
  VDict (<["ownershipDocument" :=
             VDict (<[kind := VDict (<[transaction_key kind := v]> t)]> doc)]>
           top).

(** ** Sample documents *)

(** [<tag><value>s</value></tag>] as [xmltodict] returns it. *)
Definition valued (s : string) : value := VDict {[ "value" := VStr s ]}.

(** A transaction entry without a price. *)
Definition sample_entry (title : string) : value :=
  VDict (list_to_map [
    ("securityTitle", valued title);
    ("transactionDate", valued "2021-03-04");
    ("transactionAmounts",
       VDict {[ "transactionShares" := valued "100" ]});
    ("ownershipNature",
       VDict {[ "directOrIndirectOwnership" := valued "D" ]}) ]).

(** The same entry with a price of 12.50. *)
Definition sample_priced_entry (title : string) : value :=
  VDict (list_to_map [
    ("securityTitle", valued title);
    ("transactionDate", valued "2021-03-04");
    ("transactionAmounts",
       VDict (list_to_map [
         ("transactionShares", valued "100");
         ("transactionPricePerShare", valued "12.50") ]));
    ("ownershipNature",
       VDict {[ "directOrIndirectOwnership" := valued "D" ]}) ]).

(** An entry without its [transactionDate]. *)
Definition sample_undated_entry (title : string) : value :=
  VDict (list_to_map [
    ("securityTitle", valued title);
    ("transactionAmounts",
       VDict {[ "transactionShares" := valued "100" ]});
    ("ownershipNature",
       VDict {[ "directOrIndirectOwnership" := valued "D" ]}) ]).

Definition sample_issuer (symbol : string) : value :=
  VDict (list_to_map [
    ("issuerCik", VStr "0000123456");
    ("issuerName", VStr "ABC Inc");
    ("issuerTradingSymbol", VStr symbol) ]).

(** The top of a document as a map, for statements that update it. *)
Definition sample_top (symbol : string) (tables : list (string * value))
  : gmap string value :=
  {[ "ownershipDocument" :=
       VDict (<["issuer" := sample_issuer symbol]> (list_to_map tables)) ]}.

(** A document for issuer [symbol] with the given tables. *)
Definition sample_document (symbol : string) (tables : list (string * value))
  : value :=
  VDict (sample_top symbol tables).

(** A document whose [nonDerivativeTable] holds one transaction object, not a
    list. *)
Definition single_transaction_document (entry : value) : value :=
  sample_document "ABC"
    [("nonDerivativeTable", VDict {[ "nonDerivativeTransaction" := entry ]})].

(** A document whose [nonDerivativeTable] holds three transactions: one
    without a price, one with a price, one that is not common stock. *)
Definition three_transaction_document : value :=
  single_transaction_document
    (VList [ sample_entry "Common Stock";
             sample_priced_entry "Class A Common Stock";
             sample_priced_entry "Stock Option" ]).

(** ** A sample archive *)

(** What a GET yields: a page or an XML document, already parsed. *)
Inductive sample_body : Type :=
  | Html (page : soup)
  | Xml (data : value).

Definition sample_soup (body : sample_body) : soup :=
  match body with
  | Html page => page
  | Xml _ => Soup None
  end.

Definition sample_xml (body : sample_body) : result value :=
  match body with
  | Html _ => Err ExpatError
  | Xml data => Ok data
  end.

(** An archive snapshot serves the URLs it holds. *)
Definition sample_get (site : gmap string sample_body) (url : string)
    (headers : gmap string string) : result sample_body :=
  match site !! url with
  | Some body => Ok body
  | None => Err RequestException
  end.

(** A listing page: one table with the given links. *)
Definition listing (links : list string) : sample_body :=
  Html (Soup (Some (Table (map (λ u, Anchor (Some u)) links) []))).

(** A table row of an index page: sequence number, description, document. *)
Definition index_row (seq description document link : string) : tr :=
  Tr [ Td seq None; Td description None;
       Td document (Some (Anchor (Some link))) ].

(** An index page: a header row and the given rows. *)
Definition index_page (rows : list tr) : sample_body :=
  Html (Soup (Some (Table [] (Tr [] :: rows)))).

(** A page without any table. *)
Definition bare_page : sample_body := Html (Soup None).

(** One filing folder that holds a Form 4 document but no index page. *)
Definition site_without_index : gmap string sample_body :=
  list_to_map [
    ("https://sec.test/cgi-bin/browse?CIK=0000123456", listing ["/f1/"]);
    ("https://sec.test/f1/", listing ["/f1/form4.xml"]);
    ("https://sec.test/f1/form4.xml",
       Xml (single_transaction_document (sample_entry "Common Stock"))) ].

(** The same folder with its index page. *)
Definition site_with_index : gmap string sample_body :=
  <["https://sec.test/f1/" := listing ["/f1/0001-index.html"; "/f1/form4.xml"]]>
  (<["https://sec.test/f1/0001-index.html" :=
       index_page [index_row "1" "FORM 4" "form4.xml" "/f1/form4.xml"]]>
     site_without_index).

(** The row expected for [sample_entry], under table [kind]. *)
Definition sample_row (title : string) (price : value) (kind : string)
  : transaction_record :=
  TransactionRecord (VStr "0000123456") (VStr "ABC Inc") (VStr "ABC")
    (VStr title) (VStr "2021-03-04") (VStr "100") price (VStr "D") kind.

(** ** Vocabulary of the further properties *)

(** The filter evaluates to [True] on the entry. *)
Definition passes_filter (data : value) (cik_name : string) (d : value) : bool :=
  match emission_filter data d cik_name with
  | Ok true => true
  | Ok false | Err _ => false
  end.

(** The title of an entry can be read and tested for "Common Stock". *)
Definition title_tested (d : value) (outcome : bool) : Prop :=
  ∃ title, get_path d ["securityTitle"; "value"] = Ok title
           ∧ py_in "Common Stock" title = Ok outcome.

(** What every row of a crawl for entity [cik_name] satisfies. *)
Definition row_of_entity (cik_name : string) (r : transaction_record) : Prop :=
  issuerTradingSymbol r = VStr cik_name
  ∧ py_in "Common Stock" (securityTitle r) = Ok true
  ∧ is_table_kind (derivative_type r).

(** Two rows carry the same issuer block. *)
Definition same_issuer (r r' : transaction_record) : Prop :=
  issuerCik r = issuerCik r'
  ∧ issuerName r = issuerName r'
  ∧ issuerTradingSymbol r = issuerTradingSymbol r'.

(** A document with both tables filled: two derivative entries, of which
    the second is common stock, and two non-derivative ones. *)
Definition two_table_document : value :=
  sample_document "ABC"
    [ ("derivativeTable",
         VDict {[ "derivativeTransaction" :=
                    VList [ sample_priced_entry "Stock Option";
                            sample_priced_entry "Common Stock Warrant" ] ]});
      ("nonDerivativeTable",
         VDict {[ "nonDerivativeTransaction" :=
                    VList [ sample_entry "Common Stock";
                            sample_priced_entry "Class A Common Stock" ] ]}) ].

(** A document without an issuer block whose only entry is an option. *)
Definition issuerless_document : value :=
  VDict {[ "ownershipDocument" :=
             VDict {[ "nonDerivativeTable" :=
                        VDict {[ "nonDerivativeTransaction" :=
                                   sample_entry "Stock Option" ]} ]} ]}.

(** A document of another issuer whose entry lacks its date. *)
Definition other_issuer_document : value :=
  sample_document "XYZ"
    [("nonDerivativeTable",
        VDict {[ "nonDerivativeTransaction" :=
                   sample_undated_entry "Common Stock" ]})].

(** A document with two [nonDerivativeTable] elements: [xmltodict] returns
    the list of the two tables. *)
Definition repeated_table_document : value :=
  sample_document "ABC"
    [("nonDerivativeTable",
        VList [ VDict {[ "nonDerivativeTransaction" :=
                           sample_entry "Common Stock" ]};
                VDict {[ "nonDerivativeTransaction" :=
                           sample_priced_entry "Common Stock" ]} ])].

(** The pages of one filing folder under [https://sec.test]: its listing,
    its index page with one Form 4 row, and the document. *)
Definition filing_pages (folder : string) (data : value)
  : list (string * sample_body) :=
  [ ("https://sec.test" +:+ folder,
       listing [folder +:+ "0001-index.html"; folder +:+ "form4.xml"]);
    ("https://sec.test" +:+ folder +:+ "0001-index.html",
       index_page [index_row "1" "FORM 4" "form4.xml" (folder +:+ "form4.xml")]);
    ("https://sec.test" +:+ folder +:+ "form4.xml", Xml data) ].

(** An entity with two filings, [/f1/] listed before [/f2/]. *)
Definition site_two_filings : gmap string sample_body :=
  list_to_map
    (("https://sec.test/cgi-bin/browse?CIK=0000123456", listing ["/f1/"; "/f2/"])
     :: filing_pages "/f1/"
          (single_transaction_document (sample_entry "Common Stock"))
     ++ filing_pages "/f2/"
          (single_transaction_document
             (sample_priced_entry "Class A Common Stock"))).

(** Two entities with one filing each. *)
Definition site_two_entities : gmap string sample_body :=
  list_to_map
    (("https://sec.test/cgi-bin/browse?CIK=0000123456", listing ["/f1/"])
     :: ("https://sec.test/cgi-bin/browse?CIK=0000654321", listing ["/g1/"])
     :: filing_pages "/f1/"
          (single_transaction_document (sample_entry "Common Stock"))
     ++ filing_pages "/g1/"
          (sample_document "XYZ"
             [("derivativeTable",
                 VDict {[ "derivativeTransaction" :=
                            sample_priced_entry "Common Stock" ]})])).

(** A filing folder whose index page lists no Form 4 row. *)
Definition site_without_form_4 : gmap string sample_body :=
  list_to_map
    [ ("https://sec.test/cgi-bin/browse?CIK=0000123456", listing ["/f1/"]);
      ("https://sec.test/f1/", listing ["/f1/0001-index.html"; "/f1/8k.htm"]);
      ("https://sec.test/f1/0001-index.html",
         index_page [index_row "1" "FORM 8-K" "8k.htm" "/f1/8k.htm"]) ].

(** The row of the filing of entity XYZ in [site_two_entities]. *)
Definition sample_row_xyz : transaction_record :=
  TransactionRecord (VStr "0000123456") (VStr "ABC Inc") (VStr "XYZ")
    (VStr "Common Stock") (VStr "2021-03-04") (VStr "100") (VStr "12.50")
    (VStr "D") "derivativeTable".

(** * Properties *)

(** ** The result monad *)

Lemma bind_ok {A B} (r : result A) (k : A → result B) (b : B) :
  bind r k = Ok b → ∃ a, r = Ok a ∧ k a = Ok b.
Proof. destruct r as [a|e]; simpl; [eauto | discriminate]. Qed.

Lemma for_each_app {A S} (body : S → A → result S) (xs ys : list A) (acc : S) :
  for_each body (xs ++ ys) acc
  = bind (for_each body xs acc) (for_each body ys).
Proof.
  revert acc. induction xs as [|x xs IH]; intros acc; simpl; [done|].
  destruct (body acc x) as [acc'|e]; simpl; [apply IH | done].
Qed.

(** ** Strings *)

(** [+:+] does not unfold under [simpl]; its two equations. *)
Lemma append_nil (s : string) : EmptyString +:+ s = s.
Proof. reflexivity. Qed.

Lemma append_cons (c : ascii) (s s' : string) :
  String c s +:+ s' = String c (s +:+ s').
Proof. reflexivity. Qed.

Lemma prefix_correct (p s : string) :
  String.prefix p s = true ↔ ∃ rest, s = p +:+ rest.
Proof.
  revert s. induction p as [|c p IH]; intros [|d s]; simpl.
  - split; [intros _; by exists EmptyString | done].
  - split; [intros _; by exists (String d s) | done].
  - split; [done | intros [rest H]; discriminate].
  - destruct (ascii_dec c d) as [->|Hne].
    + rewrite IH. split; intros [rest H]; exists rest.
      * by rewrite H.
      * by injection H.
    + split; [done | intros [rest H]; injection H; congruence].
Qed.

(** [str_in] is the substring test. *)
Lemma str_in_correct (needle hay : string) :
  str_in needle hay = true ↔ ∃ pre post, hay = pre +:+ needle +:+ post.
Proof.
  induction hay as [|c hay IH]; cbn [str_in].
  - rewrite orb_false_r, prefix_correct. split.
    + intros [rest H]. by exists EmptyString, rest.
    + intros ([|d pre] & post & H); [eauto | discriminate].
  - rewrite orb_true_iff, prefix_correct, IH. split.
    + intros [[rest H] | (pre & post & H)].
      * by exists EmptyString, rest.
      * exists (String c pre), post. simpl. by rewrite H.
    + intros ([|d pre] & post & H); simpl in H.
      * left. eauto.
      * right. injection H as _ H. eauto.
Qed.

Lemma split_nonempty (sep : ascii) (s : string) : split sep s ≠ [].
Proof.
  destruct s as [|c s]; simpl; [done|].
  destruct (Ascii.eqb c sep); [done|]. by destruct (split sep s).
Qed.

Lemma index_last_snoc {A} (l : list A) (x : A) : index_last (l ++ [x]) = Ok x.
Proof. unfold index_last. by rewrite reverse_snoc. Qed.

Lemma index_last_split (sep : ascii) (s : string) :
  index_last (split sep s) = Ok (last_segment sep s).
Proof.
  unfold last_segment.
  destruct (split sep s) as [|seg segs _] eqn:E using rev_ind.
  - by destruct (split_nonempty sep s).
  - by rewrite index_last_snoc, last_snoc.
Qed.

(** [split] is Python's: joining the segments gives the string back, and no
    segment holds the separator. *)
Lemma join_split (sep : ascii) (s : string) : join sep (split sep s) = s.
Proof.
  induction s as [|c s IH]; [done|]. cbn [split].
  pose proof (split_nonempty sep s) as Hne.
  destruct (Ascii.eqb_spec c sep) as [->|_].
  - destruct (split sep s) as [|seg segs]; [done|].
    cbn [join] in *. by rewrite IH.
  - destruct (split sep s) as [|seg segs]; [done|].
    destruct segs as [|seg' segs]; cbn [join] in *; by rewrite <- IH.
Qed.

Lemma sep_free_cons (sep c : ascii) (s : string) :
  sep_free sep (String c s) ↔ c ≠ sep ∧ sep_free sep s.
Proof.
  unfold sep_free. cbn [str_in String.prefix]. rewrite orb_false_iff.
  destruct (ascii_dec sep c) as [->|Hne].
  - destruct s; cbn [String.prefix]; (split; intros [? _]; [discriminate | congruence]).
  - split; [intros [_ ?]; split; [congruence | done] | by intros [_ ?]].
Qed.

Lemma split_segments_sep_free (sep : ascii) (s : string) :
  Forall (sep_free sep) (split sep s).
Proof.
  induction s as [|c s IH]; cbn [split]; [by apply Forall_singleton|].
  destruct (Ascii.eqb_spec c sep) as [->|Hne]; [by apply Forall_cons_2|].
  pose proof (split_nonempty sep s) as Hnil.
  destruct (split sep s) as [|seg segs]; [done|].
  apply Forall_cons in IH as [Hseg Hsegs].
  apply Forall_cons_2; [by apply sep_free_cons | done].
Qed.

Lemma split_sep_free (sep : ascii) (s : string) :
  sep_free sep s → split sep s = [s].
Proof.
  induction s as [|c s IH]; [done|]. rewrite sep_free_cons. intros [Hne Hs].
  cbn [split]. rewrite (IH Hs). by destruct (Ascii.eqb_spec c sep).
Qed.

Lemma split_app_sep (sep : ascii) (pre post : string) :
  split sep (pre +:+ String sep post) = split sep pre ++ split sep post.
Proof.
  induction pre as [|c pre IH].
  - rewrite append_nil. cbn [split app]. by rewrite Ascii.eqb_refl.
  - rewrite append_cons. cbn [split]. rewrite IH. pose proof (split_nonempty sep pre) as Hne.
    destruct (Ascii.eqb c sep); [done|]. by destruct (split sep pre).
Qed.

Lemma last_segment_app_sep (sep : ascii) (pre post : string) :
  last_segment sep (pre +:+ String sep post) = last_segment sep post.
Proof.
  unfold last_segment. rewrite split_app_sep.
  pose proof (split_nonempty sep post) as Hne.
  destruct (split sep post) as [|seg segs _] using rev_ind; [done|].
  by rewrite app_assoc, !last_snoc.
Qed.

Lemma append_assoc (a b c : string) : (a +:+ b) +:+ c = a +:+ (b +:+ c).
Proof.
  induction a as [|x a IH]; [done|]. rewrite !append_cons. by rewrite IH.
Qed.

Lemma join_last (sep : ascii) (segs : list string) :
  segs ≠ [] →
  join sep segs = default EmptyString (last segs)
  ∨ ∃ pre, join sep segs = pre +:+ String sep (default EmptyString (last segs)).
Proof.
  induction segs as [|seg segs IH]; [done|]. intros _.
  destruct segs as [|seg' segs]; [by left|]. right.
  rewrite last_cons_cons.
  change (join sep (seg :: seg' :: segs))
    with (seg +:+ String sep (join sep (seg' :: segs))).
  destruct IH as [E | [pre E]]; [done| |]; rewrite E.
  - by exists seg.
  - exists (seg +:+ String sep pre). by rewrite append_assoc.
Qed.

(** A string is its last segment, or ends with the separator followed by
    its last segment. *)
Lemma last_segment_suffix (sep : ascii) (s : string) :
  s = last_segment sep s ∨ ∃ pre, s = pre +:+ String sep (last_segment sep s).
Proof.
  pose proof (join_last sep (split sep s) (split_nonempty sep s)) as H.
  by rewrite join_split in H.
Qed.

(** What the two extension tests of the code mean: the string is the
    segment, or ends with the separator followed by the segment. *)
Lemma last_segment_eq (sep : ascii) (s seg : string) :
  sep_free sep seg →
  last_segment sep s = seg ↔ s = seg ∨ ∃ pre, s = pre +:+ String sep seg.
Proof.
  intros Hfree. split.
  - intros <-. apply last_segment_suffix.
  - intros [-> | [pre ->]].
    + unfold last_segment. by rewrite split_sep_free.
    + rewrite last_segment_app_sep. unfold last_segment.
      by rewrite split_sep_free.
Qed.

Lemma is_index_link_suffix (url : string) :
  is_index_link url = true
  ↔ url = "index.html" ∨ ∃ pre, url = pre +:+ "-index.html".
Proof.
  unfold is_index_link. rewrite String.eqb_eq.
  by apply (last_segment_eq "-" url "index.html").
Qed.

(** The extension test of line 165: the text is "xml" or ends with ".xml". *)
Lemma xml_extension_suffix (t : string) :
  String.eqb (last_segment "." t) "xml" = true
  ↔ t = "xml" ∨ ∃ pre, t = pre +:+ ".xml".
Proof. rewrite String.eqb_eq. by apply (last_segment_eq "." t "xml"). Qed.

(** ** The index locator *)

Lemma find_index_file_cons (url : string) (rest : list (option string)) :
  find_index_file (Some url :: rest)
  = if is_index_link url then Ok (Some url) else find_index_file rest.
Proof.
  cbn [find_index_file attr bind]. rewrite index_last_split. cbn [bind].
  unfold is_index_link. by rewrite String.eqb_sym.
Qed.

Lemma find_index_file_find (url_list : list string) :
  find_index_file (Some <$> url_list) = Ok (List.find is_index_link url_list).
Proof.
  induction url_list as [|url rest IH]; [done|].
  rewrite fmap_cons, find_index_file_cons. cbn [List.find].
  by destruct (is_index_link url).
Qed.

Lemma find_first_match {A} (P : A → bool) (l : list A) (x : A) :
  List.find P l = Some x ↔ first_match P l x.
Proof.
  unfold first_match. induction l as [|y l IH]; cbn [List.find].
  - split; [done | intros ([|??] & ? & ? & _); discriminate].
  - destruct (P y) eqn:HP.
    + split.
      * intros [= ->]. by exists [], l.
      * intros ([|z pre] & post & E & Hx & Hpre); simplify_eq/=; [done|].
        apply Forall_cons in Hpre as [Hz _]. congruence.
    + rewrite IH. split.
      * intros (pre & post & -> & Hx & Hpre). exists (y :: pre), post.
        split_and!; [done | done | by constructor].
      * intros ([|z pre] & post & E & Hx & Hpre); simplify_eq/=; [congruence|].
        apply Forall_cons in Hpre as [_ Hpre]. eauto.
Qed.

Lemma find_none_Forall {A} (P : A → bool) (l : list A) :
  List.find P l = None ↔ Forall (λ y, P y = false) l.
Proof.
  induction l as [|y l IH]; cbn [List.find]; [by split|].
  rewrite Forall_cons. destruct (P y).
  - split; [done | by intros [? _]].
  - rewrite IH. split; [done | by intros [_ ?]].
Qed.

(** C6. [find_index_file] returns a link exactly when some link of the list
    has [index.html] as the last segment of its split on [-]; the link it
    returns is the first such link in list order, and without one it returns
    [None]. *)
Theorem find_index_file_first_match (url_list : list string) :
  ((∃ url, find_index_file (Some <$> url_list) = Ok (Some url))
     ↔ ∃ url, url ∈ url_list ∧ is_index_link url = true)
  ∧ (∀ url, find_index_file (Some <$> url_list) = Ok (Some url)
            ↔ first_match is_index_link url_list url)
  ∧ (find_index_file (Some <$> url_list) = Ok None
       ↔ Forall (λ url, is_index_link url = false) url_list).
Proof.
  rewrite find_index_file_find. split_and!.
  - split.
    + intros [url [= H]]. apply find_some in H as [Hin Hp].
      exists url. by rewrite list_elem_of_In.
    + intros (url & Hin & Hp).
      destruct (List.find is_index_link url_list) as [u|] eqn:E; [eauto|].
      apply find_none_Forall in E. rewrite Forall_forall in E.
      rewrite (E _ Hin) in Hp. discriminate.
  - intros url. rewrite <- find_first_match. split; [by intros [= ->] | by intros ->].
  - rewrite <- find_none_Forall. split; [by intros [= ->] | by intros ->].
Qed.

(** ** The extractor *)

Lemma select_transactions_kind (data : value) (kind : string) (df : data_frame) :
  is_table_kind kind →
  select_transactions data kind df
  = (let* table := get_path data ["ownershipDocument"; kind] in
     let* has := py_in (transaction_key kind) table in
     if negb has then Ok (inl df)
     else let* v := get_path data
                      ["ownershipDocument"; kind; transaction_key kind] in
          Ok (inr (Some v))).
Proof. by intros [-> | ->]. Qed.

Lemma select_transactions_other (data : value) (kind : string) (df : data_frame) :
  ¬ is_table_kind kind → select_transactions data kind df = Ok (inr None).
Proof.
  intros Hk. unfold select_transactions.
  destruct (String.eqb_spec kind "nonDerivativeTable") as [->|_].
  { destruct Hk. by right. }
  destruct (String.eqb_spec kind "derivativeTable") as [->|_]; [|done].
  destruct Hk. by left.
Qed.

Lemma is_table_kind_dec (kind : string) : is_table_kind kind ∨ ¬ is_table_kind kind.
Proof.
  unfold is_table_kind.
  destruct (decide (kind = "derivativeTable")); [by left; left|].
  destruct (decide (kind = "nonDerivativeTable")); [by left; right|].
  right. by intros [?|?].
Qed.

(** What a successful run went through: either nothing was emitted, or the
    transaction list was found under one of the two tables and looped over. *)
Lemma extract_data_inv (data : value) (kind cik_name : string) (recs : data_frame) :
  extract_data data kind cik_name = Ok recs →
  recs = [] ∨
  (is_table_kind kind ∧
   ∃ v, get_path data ["ownershipDocument"; kind; transaction_key kind] = Ok v
        ∧ for_each (extract_step data kind cik_name) (as_list v) [] = Ok recs).
Proof.
  unfold extract_data. intros H.
  apply bind_ok in H as ([] & _ & H); [|left; by injection H].
  destruct (is_table_kind_dec kind) as [Hk|Hk].
  - rewrite (select_transactions_kind _ _ _ Hk) in H.
    apply bind_ok in H as (sel & Hsel & H).
    apply bind_ok in Hsel as (table & _ & Hsel).
    apply bind_ok in Hsel as (has & _ & Hsel).
    destruct has; cbn [negb] in Hsel.
    + apply bind_ok in Hsel as (v & Hv & [= <-]). cbn [read_local bind] in H.
      right. eauto.
    + injection Hsel as <-. left. by injection H.
  - rewrite (select_transactions_other _ _ _ Hk) in H. discriminate.
Qed.

Lemma extract_step_inv (data : value) (kind cik_name : string)
    (acc recs : data_frame) (d : value) :
  extract_step data kind cik_name acc d = Ok recs →
  (emission_filter data d cik_name = Ok false ∧ recs = acc)
  ∨ ∃ r, emitted_from data kind cik_name d r ∧ recs = acc ++ [r].
Proof.
  unfold extract_step, emitted_from. intros H.
  apply bind_ok in H as ([] & Hf & H).
  - apply bind_ok in H as (r & Hr & [= <-]). right. eauto.
  - injection H as <-. by left.
Qed.

(** The loop only appends, and each appended row comes from an entry of the
    list that passed the filter. *)
Lemma for_each_extract_step_inv (data : value) (kind cik_name : string)
    (ds : list value) (acc recs : data_frame) :
  for_each (extract_step data kind cik_name) ds acc = Ok recs →
  ∃ new, recs = acc ++ new
         ∧ Forall (λ r, ∃ d, d ∈ ds ∧ emitted_from data kind cik_name d r) new.
Proof.
  revert acc. induction ds as [|d ds IH]; intros acc H; cbn [for_each] in H.
  - injection H as <-. exists []. by rewrite app_nil_r.
  - apply bind_ok in H as (acc' & Hstep & H).
    apply IH in H as (new & -> & Hnew).
    assert (Hweak : Forall (λ r, ∃ d0, d0 ∈ d :: ds
                                 ∧ emitted_from data kind cik_name d0 r) new).
    { eapply Forall_impl; [exact Hnew|]. intros r (d0 & Hin & Hr).
      exists d0. split; [by right | done]. }
    apply extract_step_inv in Hstep as [[_ ->] | (r & Hr & ->)].
    + eauto.
    + exists (r :: new). split; [by rewrite <- app_assoc|].
      constructor; [|done]. exists d. split; [by left | done].
Qed.

(** Every emitted row comes from an entry of the selected transaction list
    that passed the filter, and the table name is one of the two. *)
Lemma extract_data_emitted (data : value) (kind cik_name : string)
    (recs : data_frame) (r : transaction_record) :
  extract_data data kind cik_name = Ok recs → r ∈ recs →
  is_table_kind kind ∧
  ∃ v d, get_path data ["ownershipDocument"; kind; transaction_key kind] = Ok v
         ∧ d ∈ as_list v ∧ emitted_from data kind cik_name d r.
Proof.
  intros H Hin. apply extract_data_inv in H as [-> | (Hk & v & Hv & H)].
  { by apply elem_of_nil in Hin. }
  split; [done|]. apply for_each_extract_step_inv in H as (new & -> & Hnew).
  rewrite Forall_forall in Hnew. destruct (Hnew r Hin) as (d & Hd & Hr).
  eauto.
Qed.

Lemma make_record_inv (data d price : value) (kind : string)
    (r : transaction_record) :
  make_record data d price kind = Ok r →
  get_path data ["ownershipDocument"; "issuer"; "issuerCik"] = Ok (issuerCik r)
  ∧ get_path data ["ownershipDocument"; "issuer"; "issuerName"]
    = Ok (issuerName r)
  ∧ get_path data ["ownershipDocument"; "issuer"; "issuerTradingSymbol"]
    = Ok (issuerTradingSymbol r)
  ∧ get_path d ["securityTitle"; "value"] = Ok (securityTitle r)
  ∧ get_path d ["transactionDate"; "value"] = Ok (transactionDate r)
  ∧ get_path d ["transactionAmounts"; "transactionShares"; "value"]
    = Ok (transactionShares r)
  ∧ get_path d ["ownershipNature"; "directOrIndirectOwnership"; "value"]
    = Ok (directOrIndirectOwnership r)
  ∧ transactionPricePerShare r = price
  ∧ derivative_type r = kind.
Proof.
  unfold make_record. intros H.
  apply bind_ok in H as (cik & H1 & H).
  apply bind_ok in H as (name & H2 & H).
  apply bind_ok in H as (symbol & H3 & H).
  apply bind_ok in H as (title & H4 & H).
  apply bind_ok in H as (date & H5 & H).
  apply bind_ok in H as (shares & H6 & H).
  apply bind_ok in H as (nature & H7 & H).
  injection H as <-. by cbn.
Qed.

Lemma emission_filter_inv (data d : value) (cik_name : string) :
  emission_filter data d cik_name = Ok true →
  ∃ title, get_path d ["securityTitle"; "value"] = Ok title
           ∧ py_in "Common Stock" title = Ok true
           ∧ get_path data ["ownershipDocument"; "issuer"; "issuerTradingSymbol"]
             = Ok (VStr cik_name).
Proof.
  unfold emission_filter. intros H.
  apply bind_ok in H as (title & Ht & H).
  apply bind_ok in H as ([] & Hin & H); [|discriminate].
  apply bind_ok in H as (symbol & Hs & [= H]).
  destruct symbol as [|s| |]; try discriminate.
  apply String.eqb_eq in H as ->. eauto.
Qed.

Lemma get_path_cons (v : value) (k : string) (ks : list string) :
  get_path v (k :: ks) = (let* x := get_item v k in get_path x ks).
Proof. reflexivity. Qed.

Lemma get_item_ok_inv (v : value) (k : string) (x : value) :
  get_item v k = Ok x → ∃ d, v = VDict d ∧ d !! k = Some x.
Proof.
  destruct v as [| | |d]; try discriminate. cbn [get_item].
  destruct (d !! k) as [y|] eqn:E; [|discriminate]. intros [= ->]. eauto.
Qed.

Lemma get_item_lookup (d : gmap string value) (k : string) (x : value) :
  d !! k = Some x → get_item (VDict d) k = Ok x.
Proof. cbn [get_item]. by intros ->. Qed.

Lemma get_item_fault (v : value) (k : string) (e : fault) :
  get_item v k = Err e → lookup_fault e.
Proof.
  unfold lookup_fault. destruct v as [| | |d]; cbn [get_item].
  1-3: intros [= <-]; by right.
  destruct (d !! k); [discriminate|]. intros [= <-]. by left.
Qed.

Lemma get_path_fault (v : value) (ks : list string) (e : fault) :
  get_path v ks = Err e → lookup_fault e.
Proof.
  revert v. induction ks as [|k ks IH]; intros v; [discriminate|].
  rewrite get_path_cons. destruct (get_item v k) as [x|e'] eqn:E; cbn [bind].
  - apply IH.
  - intros [= <-]. by eapply get_item_fault.
Qed.

Lemma py_in_fault (k : string) (v : value) (e : fault) :
  py_in k v = Err e → lookup_fault e.
Proof. destruct v; try discriminate. intros [= <-]. by right. Qed.

(** The three lookups behind a located transaction list. *)
Lemma transactions_path_inv (data : value) (kind : string) (v : value) :
  get_path data (transactions_path kind) = Ok v →
  ∃ top doc t, data = VDict top
               ∧ top !! "ownershipDocument" = Some (VDict doc)
               ∧ doc !! kind = Some (VDict t)
               ∧ t !! transaction_key kind = Some v.
Proof.
  unfold transactions_path. rewrite !get_path_cons. intros H.
  apply bind_ok in H as (x1 & H1 & H). apply bind_ok in H as (x2 & H2 & H).
  apply bind_ok in H as (x3 & H3 & [= ->]).
  apply get_item_ok_inv in H1 as (top & -> & H1).
  apply get_item_ok_inv in H2 as (doc & -> & H2).
  apply get_item_ok_inv in H3 as (t & -> & H3).
  by exists top, doc, t.
Qed.

Lemma transactions_path_lookup (top doc t : gmap string value) (kind : string)
    (v : value) :
  top !! "ownershipDocument" = Some (VDict doc) →
  doc !! kind = Some (VDict t) →
  t !! transaction_key kind = Some v →
  get_path (VDict top) (transactions_path kind) = Ok v.
Proof.
  intros H1 H2 H3. unfold transactions_path.
  rewrite get_path_cons, (get_item_lookup _ _ _ H1). cbn [bind].
  rewrite get_path_cons, (get_item_lookup _ _ _ H2). cbn [bind].
  by rewrite get_path_cons, (get_item_lookup _ _ _ H3).
Qed.

(** Once the transaction list is located, the extractor is its loop. *)
Lemma extract_data_located (data : value) (kind cik_name : string) (v : value) :
  is_table_kind kind →
  get_path data (transactions_path kind) = Ok v →
  extract_data data kind cik_name
  = for_each (extract_step data kind cik_name) (as_list v) [].
Proof.
  intros Hk H.
  destruct (transactions_path_inv _ _ _ H) as (top & doc & t & -> & H1 & H2 & H3).
  unfold extract_data, table_present.
  rewrite (select_transactions_kind _ _ _ Hk). fold (transactions_path kind).
  rewrite H. cbn [get_path for_each bind].
  rewrite !(get_item_lookup _ _ _ H1). cbn [bind py_in].
  rewrite H2, bool_decide_eq_true_2 by eauto.
  rewrite !(get_item_lookup _ _ _ H2). cbn [bind not_none py_in].
  rewrite H3, bool_decide_eq_true_2 by eauto. reflexivity.
Qed.

Lemma extract_step_emit (data : value) (kind cik_name : string)
    (acc : data_frame) (d : value) (r : transaction_record) :
  emitted_from data kind cik_name d r →
  extract_step data kind cik_name acc d = Ok (acc ++ [r]).
Proof. intros [Hf Hr]. unfold extract_step. by rewrite Hf; cbn [bind]; rewrite Hr. Qed.

Lemma extract_step_skip (data : value) (kind cik_name : string)
    (acc : data_frame) (d : value) :
  emission_filter data d cik_name = Ok false →
  extract_step data kind cik_name acc d = Ok acc.
Proof. intros Hf. unfold extract_step. by rewrite Hf. Qed.

Lemma emission_filter_fault (data d : value) (cik_name : string) (e : fault) :
  emission_filter data d cik_name = Err e → lookup_fault e.
Proof.
  unfold emission_filter.
  destruct (get_path d _) as [title|e1] eqn:E1; cbn [bind];
    [|intros [= <-]; by eapply get_path_fault].
  destruct (py_in _ title) as [[]|e2] eqn:E2; cbn [bind];
    [|discriminate|intros [= <-]; by eapply py_in_fault].
  destruct (get_path data _) as [symbol|e3] eqn:E3; cbn [bind];
    [discriminate|intros [= <-]; by eapply get_path_fault].
Qed.

(** Whether the row can be built does not depend on the price. *)
Lemma make_record_readable (data d price : value) (kind : string) :
  is_ok (make_record data d price kind) = true
  ↔ Forall (readable data) issuer_fields ∧ Forall (readable d) entry_fields.
Proof.
  unfold make_record, issuer_fields, entry_fields, readable.
  rewrite !Forall_cons, !Forall_nil.
  repeat match goal with
         | |- context [get_path ?v ?p] =>
             let E := fresh "E" in destruct (get_path v p) eqn:E; cbn [bind is_ok]
         end; intuition discriminate.
Qed.

Lemma make_record_fault (data d price : value) (kind : string) (e : fault) :
  make_record data d price kind = Err e → lookup_fault e.
Proof.
  unfold make_record.
  repeat match goal with
         | |- context [bind (get_path ?v ?p)] =>
             let E := fresh "E" in
             destruct (get_path v p) eqn:E; cbn [bind];
             [|intros [= <-]; by eapply get_path_fault]
         end.
  discriminate.
Qed.

Lemma extract_step_fault (data : value) (kind cik_name : string)
    (acc : data_frame) (d : value) (e : fault) :
  extract_step data kind cik_name acc d = Err e → lookup_fault e.
Proof.
  unfold extract_step.
  destruct (emission_filter data d cik_name) as [[]|e1] eqn:E1; cbn [bind];
    [|discriminate|intros [= <-]; by eapply emission_filter_fault].
  destruct (make_record _ _ _ _) as [r|e2] eqn:E2; cbn [bind];
    [discriminate|intros [= <-]; by eapply make_record_fault].
Qed.

Lemma for_each_extract_step_fault (data : value) (kind cik_name : string)
    (ds : list value) (acc : data_frame) (e : fault) :
  for_each (extract_step data kind cik_name) ds acc = Err e → lookup_fault e.
Proof.
  revert acc. induction ds as [|d ds IH]; intros acc; [discriminate|].
  cbn [for_each].
  destruct (extract_step data kind cik_name acc d) as [acc'|e'] eqn:E; cbn [bind].
  - apply IH.
  - intros [= <-]. by eapply extract_step_fault.
Qed.

(** An entry on which the body raises makes the loop raise. *)
Lemma for_each_raises {A S} (body : S → A → result S) (xs : list A) (x : A)
    (acc : S) :
  x ∈ xs → (∀ acc', is_ok (body acc' x) = false) →
  is_ok (for_each body xs acc) = false.
Proof.
  intros Hin Hx. revert acc.
  induction xs as [|y xs IH]; intros acc; [by apply elem_of_nil in Hin|].
  cbn [for_each]. destruct (body acc y) as [acc'|e] eqn:E; cbn [bind]; [|done].
  apply elem_of_cons in Hin as [<- | Hin].
  - specialize (Hx acc). by rewrite E in Hx.
  - by apply IH.
Qed.

(** C2. A row is emitted only for an entry whose security title contains
    "Common Stock" (the test [in] makes: for a text title, the substring test)
    and only when the issuer trading symbol of the document is exactly the
    entity key; an entry titled "Stock Option" is never emitted. *)
Theorem emitted_only_common_stock_of_entity (data : value)
    (kind cik_name : string) (recs : data_frame) (r : transaction_record) :
  extract_data data kind cik_name = Ok recs → r ∈ recs →
  (∃ v d, get_path data (transactions_path kind) = Ok v ∧ d ∈ as_list v
          ∧ get_path d ["securityTitle"; "value"] = Ok (securityTitle r))
  ∧ py_in "Common Stock" (securityTitle r) = Ok true
  ∧ (∀ s, securityTitle r = VStr s →
          ∃ pre post, s = pre +:+ "Common Stock" +:+ post)
  ∧ securityTitle r ≠ VStr "Stock Option"
  ∧ get_path data ["ownershipDocument"; "issuer"; "issuerTradingSymbol"]
    = Ok (VStr cik_name)
  ∧ issuerTradingSymbol r = VStr cik_name.
Proof.
  intros H Hin.
  destruct (extract_data_emitted _ _ _ _ _ H Hin)
    as (_ & v & d & Hv & Hd & Hpass & Hrow).
  apply emission_filter_inv in Hpass as (title & Ht & Hcs & Hsym).
  apply make_record_inv in Hrow as (_ & _ & Hs & Ht' & _).
  assert (title = securityTitle r) as -> by congruence.
  assert (Htext : ∀ s, securityTitle r = VStr s → str_in "Common Stock" s = true).
  { intros s E. rewrite E in Hcs. by injection Hcs. }
  split_and!; [by eauto | done | | | done | congruence].
  - intros s E. by apply str_in_correct, Htext.
  - intros E. apply Htext in E. discriminate.
Qed.

Lemma emitted_only_common_stock_of_entity_witness :
  let data := single_transaction_document (sample_entry "Common Stock") in
  let r := sample_row "Common Stock" VNone "nonDerivativeTable" in
  extract_data data "nonDerivativeTable" "ABC" = Ok [r]
  ∧ py_in "Common Stock" (securityTitle r) = Ok true
  ∧ issuerTradingSymbol r = VStr "ABC".
Proof.
  intros data r.
  assert (H : extract_data data "nonDerivativeTable" "ABC" = Ok [r])
    by (vm_compute; reflexivity).
  split; [exact H|].
  destruct (emitted_only_common_stock_of_entity data "nonDerivativeTable"
              "ABC" [r] r H (list_elem_of_here r []))
    as (_ & H1 & _ & _ & _ & H2).
  split; [exact H1 | exact H2].
Defined.

(** An entry titled "Stock Option" is dropped although the symbol matches. *)
Example stock_option_excluded :
  extract_data (single_transaction_document (sample_entry "Stock Option"))
    "nonDerivativeTable" "ABC" = Ok [].
Proof. vm_compute. reflexivity. Qed.

(** C3, as the code has it: every emitted row carries as its tag the table
    name the extractor was called with, which is one of "derivativeTable"
    and "nonDerivativeTable". *)
Theorem derivative_type_is_table_name (data : value) (kind cik_name : string)
    (recs : data_frame) (r : transaction_record) :
  extract_data data kind cik_name = Ok recs → r ∈ recs →
  derivative_type r = kind
  ∧ (derivative_type r = "derivativeTable"
     ∨ derivative_type r = "nonDerivativeTable").
Proof.
  intros H Hin.
  destruct (extract_data_emitted _ _ _ _ _ H Hin)
    as (Hk & v & d & _ & _ & _ & Hrow).
  apply make_record_inv in Hrow as (_ & _ & _ & _ & _ & _ & _ & _ & ->).
  done.
Qed.

Lemma derivative_type_is_table_name_witness :
  let data := single_transaction_document (sample_entry "Common Stock") in
  let r := sample_row "Common Stock" VNone "nonDerivativeTable" in
  extract_data data "nonDerivativeTable" "ABC" = Ok [r]
  ∧ derivative_type r = "nonDerivativeTable".
Proof.
  intros data r.
  assert (H : extract_data data "nonDerivativeTable" "ABC" = Ok [r])
    by (vm_compute; reflexivity).
  split; [exact H|].
  exact (proj1 (derivative_type_is_table_name data "nonDerivativeTable" "ABC"
                  [r] r H (list_elem_of_here r []))).
Defined.

(** C3, as stated, fails: the one row extracted from a [nonDerivativeTable]
    is tagged "nonDerivativeTable", which is neither "non-derivative" nor
    "derivative". *)
Lemma derivative_type_tag_counterexample :
  ∃ r, extract_data (single_transaction_document (sample_entry "Common Stock"))
         "nonDerivativeTable" "ABC" = Ok [r]
       ∧ derivative_type r ≠ "non-derivative"
       ∧ derivative_type r ≠ "derivative".
Proof.
  exists (sample_row "Common Stock" VNone "nonDerivativeTable").
  split_and!; [by vm_compute | done | done].
Qed.

(** C7. When the ownership root has no entry for the table, or the entry is
    [None], or the table has no entry for its transaction list, the extractor
    returns the empty frame: it does not raise. *)
Theorem missing_table_gives_empty (top doc : gmap string value)
    (kind cik_name : string) :
  is_table_kind kind →
  top !! "ownershipDocument" = Some (VDict doc) →
  doc !! kind = None
  ∨ doc !! kind = Some VNone
  ∨ (∃ t, doc !! kind = Some (VDict t) ∧ t !! transaction_key kind = None) →
  extract_data (VDict top) kind cik_name = Ok [].
Proof.
  intros Hk Htop Hcase. unfold extract_data, table_present.
  cbn [get_path for_each]. rewrite !(get_item_lookup _ _ _ Htop).
  cbn [bind py_in].
  destruct Hcase as [Hnone | [Hnull | (t & Ht & Hkey)]].
  - rewrite Hnone, bool_decide_eq_false_2 by (by intros [? ?]). reflexivity.
  - rewrite Hnull, bool_decide_eq_true_2 by eauto.
    rewrite (get_item_lookup _ _ _ Hnull). reflexivity.
  - rewrite Ht, bool_decide_eq_true_2 by eauto.
    rewrite (get_item_lookup _ _ _ Ht). cbn [bind not_none].
    rewrite (select_transactions_kind _ _ _ Hk).
    cbn [get_path for_each]. rewrite (get_item_lookup _ _ _ Htop). cbn [bind].
    rewrite (get_item_lookup _ _ _ Ht). cbn [bind py_in].
    rewrite Hkey, bool_decide_eq_false_2 by (by intros [? ?]). reflexivity.
Qed.

Lemma missing_table_gives_empty_witness :
  extract_data (sample_document "ABC" []) "derivativeTable" "ABC" = Ok []
  ∧ extract_data (sample_document "ABC" [("nonDerivativeTable", VNone)])
      "nonDerivativeTable" "ABC" = Ok []
  ∧ extract_data (sample_document "ABC" [("derivativeTable", VDict ∅)])
      "derivativeTable" "ABC" = Ok [].
Proof.
  split_and!.
  - apply (missing_table_gives_empty (sample_top "ABC" [])
             (<["issuer" := sample_issuer "ABC"]> ∅));
      [by left | reflexivity | by left].
  - apply (missing_table_gives_empty
             (sample_top "ABC" [("nonDerivativeTable", VNone)])
             (<["issuer" := sample_issuer "ABC"]>
                (list_to_map [("nonDerivativeTable", VNone)])));
      [by right | reflexivity | right; by left].
  - apply (missing_table_gives_empty
             (sample_top "ABC" [("derivativeTable", VDict ∅)])
             (<["issuer" := sample_issuer "ABC"]>
                (list_to_map [("derivativeTable", VDict ∅)])));
      [by left | reflexivity | right; right; by exists ∅].
Defined.

Lemma get_path_app (v : value) (ks ks' : list string) :
  get_path v (ks ++ ks') = (let* x := get_path v ks in get_path x ks').
Proof. apply for_each_app. Qed.

(** Two documents with the same issuer block are processed alike. *)
Lemma issuer_field_agree (data data' : value) (field : string) :
  get_path data ["ownershipDocument"; "issuer"]
  = get_path data' ["ownershipDocument"; "issuer"] →
  get_path data ["ownershipDocument"; "issuer"; field]
  = get_path data' ["ownershipDocument"; "issuer"; field].
Proof.
  intros H.
  change ["ownershipDocument"; "issuer"; field]
    with (["ownershipDocument"; "issuer"] ++ [field]).
  by rewrite !get_path_app, H.
Qed.

Lemma extract_step_issuer (data data' : value) (kind cik_name : string)
    (acc : data_frame) (d : value) :
  get_path data ["ownershipDocument"; "issuer"]
  = get_path data' ["ownershipDocument"; "issuer"] →
  extract_step data kind cik_name acc d = extract_step data' kind cik_name acc d.
Proof.
  intros H. unfold extract_step, emission_filter, make_record.
  by rewrite !(issuer_field_agree data data' _ H).
Qed.

Lemma is_table_kind_not_issuer (kind : string) : is_table_kind kind → kind ≠ "issuer".
Proof. by intros [-> | ->]. Qed.

(** C8. A transaction-list value that is a single object is processed as the
    one-element list holding it: the extractor returns what it returns on
    the document where the object is wrapped in a list, namely the loop body
    run once; when that one entry passes the filter and its fields can be
    read, the result is exactly one row. *)
Theorem single_transaction_as_singleton (top doc t : gmap string value)
    (kind cik_name : string) (d : value) :
  is_table_kind kind →
  top !! "ownershipDocument" = Some (VDict doc) →
  doc !! kind = Some (VDict t) →
  t !! transaction_key kind = Some d →
  is_list d = false →
  extract_data (VDict top) kind cik_name
  = extract_data (with_transactions top doc t kind (VList [d])) kind cik_name
  ∧ extract_data (VDict top) kind cik_name
    = extract_step (VDict top) kind cik_name [] d
  ∧ (∀ r, emitted_from (VDict top) kind cik_name d r →
          extract_data (VDict top) kind cik_name = Ok [r]).
Proof.
  intros Hk Htop Hdoc Ht Hd.
  assert (Hloc := transactions_path_lookup _ _ _ _ _ Htop Hdoc Ht).
  assert (Hone : extract_data (VDict top) kind cik_name
                 = extract_step (VDict top) kind cik_name [] d).
  { rewrite (extract_data_located _ _ _ _ Hk Hloc).
    destruct d; try discriminate; cbn [as_list for_each];
      by destruct (extract_step _ _ _ _ _). }
  split_and!; [|done|].
  - rewrite Hone.
    rewrite (extract_data_located _ kind cik_name (VList [d]) Hk).
    + cbn [as_list for_each].
      rewrite (extract_step_issuer (with_transactions _ _ _ _ _) (VDict top)).
      * by destruct (extract_step _ _ _ _ _).
      * unfold with_transactions.
        cbn [get_path for_each get_item]. rewrite lookup_insert_eq, Htop.
        cbn [bind get_item].
        by rewrite lookup_insert_ne by (by apply is_table_kind_not_issuer).
    + unfold with_transactions.
      apply (transactions_path_lookup _
               (<[kind := VDict (<[transaction_key kind := VList [d]]> t)]> doc)
               (<[transaction_key kind := VList [d]]> t));
        by rewrite lookup_insert_eq.
  - intros r Hr. rewrite Hone. by apply (extract_step_emit _ _ _ []).
Qed.

Lemma single_transaction_as_singleton_witness :
  let entry := sample_entry "Common Stock" in
  extract_data (single_transaction_document entry) "nonDerivativeTable" "ABC"
  = Ok [sample_row "Common Stock" VNone "nonDerivativeTable"]
  ∧ extract_data (single_transaction_document (VList [entry]))
      "nonDerivativeTable" "ABC"
    = Ok [sample_row "Common Stock" VNone "nonDerivativeTable"].
Proof.
  intros entry.
  pose (t := ({[ "nonDerivativeTransaction" := entry ]} : gmap string value)).
  pose (tables := [("nonDerivativeTable", VDict t)]).
  destruct (single_transaction_as_singleton
              (sample_top "ABC" tables)
              (<["issuer" := sample_issuer "ABC"]> (list_to_map tables))
              t "nonDerivativeTable" "ABC" entry)
    as (Hwrap & _ & Hrow).
  - by right.
  - reflexivity.
  - reflexivity.
  - reflexivity.
  - reflexivity.
  - assert (H : extract_data (single_transaction_document entry)
                  "nonDerivativeTable" "ABC"
                = Ok [sample_row "Common Stock" VNone "nonDerivativeTable"]).
    { apply Hrow. split; vm_compute; reflexivity. }
    split; [exact H|].
    rewrite <- H. symmetry. etransitivity; [exact Hwrap|].
    vm_compute. reflexivity.
Defined.

(** The loop returns on a list of processable entries. *)
Lemma for_each_extract_step_total (data : value) (kind cik_name : string)
    (ds : list value) (acc : data_frame) :
  Forall (processable data cik_name) ds →
  ∃ recs, for_each (extract_step data kind cik_name) ds acc = Ok recs.
Proof.
  intros Hds. revert acc.
  induction Hds as [|d ds Hd _ IH]; intros acc; cbn [for_each]; [by eauto|].
  destruct Hd as [Hskip | (Hpass & Hissuer & Hentry)].
  - rewrite (extract_step_skip _ _ _ _ _ Hskip). apply IH.
  - destruct (make_record data d (read_price d) kind) as [r|e] eqn:E.
    + rewrite (extract_step_emit _ _ _ _ _ r (conj Hpass E)). apply IH.
    + pose proof (proj2 (make_record_readable data d (read_price d) kind)
                    (conj Hissuer Hentry)) as Hok.
      rewrite E in Hok. discriminate.
Qed.

Lemma read_price_cases (d : value) :
  (unreadable d price_path → read_price d = VNone)
  ∧ (∀ p, get_path d price_path = Ok p → read_price d = p).
Proof.
  unfold read_price, unreadable. fold price_path.
  destruct (get_path d price_path) as [p|e]; cbn [try_except is_ok].
  - split; [discriminate | by intros ? [= ->]].
  - split; [done | discriminate].
Qed.

(** The loop returns only on a list of processable entries. *)
Lemma for_each_extract_step_processable (data : value) (kind cik_name : string)
    (ds : list value) (acc recs : data_frame) :
  for_each (extract_step data kind cik_name) ds acc = Ok recs →
  Forall (processable data cik_name) ds.
Proof.
  revert acc. induction ds as [|d ds IH]; intros acc H; [by apply Forall_nil_2|].
  cbn [for_each] in H. apply bind_ok in H as (acc' & Hstep & H).
  apply Forall_cons_2; [|by eapply IH].
  apply extract_step_inv in Hstep as [[Hskip _] | (r & [Hpass Hr] & _)].
  - by left.
  - right. split; [done|].
    apply (make_record_readable data d (read_price d) kind). by rewrite Hr.
Qed.

(** A passing entry of the list the loop runs over has its row in the
    result. *)
Lemma for_each_extract_step_emits (data : value) (kind cik_name : string)
    (ds : list value) (acc recs : data_frame) (d : value) :
  for_each (extract_step data kind cik_name) ds acc = Ok recs →
  d ∈ ds → emission_filter data d cik_name = Ok true →
  ∃ r, r ∈ recs ∧ emitted_from data kind cik_name d r.
Proof.
  revert acc. induction ds as [|d0 ds IH]; intros acc H Hin Hpass.
  { by apply elem_of_nil in Hin. }
  cbn [for_each] in H. apply bind_ok in H as (acc' & Hstep & H).
  apply elem_of_cons in Hin as [-> | Hin]; [|by eapply IH].
  apply extract_step_inv in Hstep as [[Hskip _] | (r & Hr & ->)].
  { rewrite Hskip in Hpass. discriminate. }
  apply for_each_extract_step_inv in H as (new & -> & _).
  exists r. split; [|done].
  apply elem_of_app. left. apply elem_of_app. right. apply list_elem_of_here.
Qed.

(** The price stored in a row built from an entry. *)
Lemma emitted_from_price (data : value) (kind cik_name : string)
    (d : value) (r : transaction_record) :
  emitted_from data kind cik_name d r →
  (unreadable d price_path → transactionPricePerShare r = VNone)
  ∧ (∀ p, get_path d price_path = Ok p → transactionPricePerShare r = p).
Proof.
  intros [_ Hr]. apply make_record_inv in Hr.
  destruct Hr as (_ & _ & _ & _ & _ & _ & _ & -> & _).
  apply read_price_cases.
Qed.

(** C9. Once the transaction list is located, the extractor returns exactly
    when every entry can be processed, a condition that asks nothing of the
    price: reading the price raises nothing out of the extractor.  When it
    returns, every entry that passes the filter has its row in the result,
    and the price of that row is [None] when reading the price of the entry
    fails and is the value read otherwise; conversely every row of the result
    is the row of such an entry. *)
Theorem price_degrades_to_null (data : value) (kind cik_name : string)
    (v : value) :
  is_table_kind kind →
  get_path data (transactions_path kind) = Ok v →
  (is_ok (extract_data data kind cik_name) = true
     ↔ Forall (processable data cik_name) (as_list v))
  ∧ (∀ recs d,
       extract_data data kind cik_name = Ok recs →
       d ∈ as_list v → emission_filter data d cik_name = Ok true →
       ∃ r, r ∈ recs
            ∧ emitted_from data kind cik_name d r
            ∧ (unreadable d price_path → transactionPricePerShare r = VNone)
            ∧ (∀ p, get_path d price_path = Ok p →
                    transactionPricePerShare r = p))
  ∧ ∀ recs r,
      extract_data data kind cik_name = Ok recs → r ∈ recs →
      ∃ d, d ∈ as_list v
           ∧ emitted_from data kind cik_name d r
           ∧ (unreadable d price_path → transactionPricePerShare r = VNone)
           ∧ (∀ p, get_path d price_path = Ok p →
                   transactionPricePerShare r = p).
Proof.
  intros Hk Hv. rewrite (extract_data_located _ _ _ _ Hk Hv). split_and!.
  - split.
    + destruct (for_each _ _ _) as [recs|e] eqn:E; [|discriminate].
      intros _. by eapply for_each_extract_step_processable.
    + intros Hds.
      destruct (for_each_extract_step_total data kind cik_name _ [] Hds)
        as [recs ->]. done.
  - intros recs d Hrecs Hd Hpass.
    destruct (for_each_extract_step_emits _ _ _ _ _ _ _ Hrecs Hd Hpass)
      as (r & Hin & Hr).
    exists r. split; [done|]. split; [done|]. by eapply emitted_from_price.
  - intros recs r Hrecs Hin.
    apply for_each_extract_step_inv in Hrecs as (new & -> & Hnew).
    rewrite Forall_forall in Hnew. destruct (Hnew r Hin) as (d & Hd & Hr).
    exists d. split; [done|]. split; [done|]. by eapply emitted_from_price.
Qed.

Lemma three_transaction_rows :
  extract_data three_transaction_document "nonDerivativeTable" "ABC"
  = Ok [ sample_row "Common Stock" VNone "nonDerivativeTable";
         sample_row "Class A Common Stock" (VStr "12.50") "nonDerivativeTable" ].
Proof. vm_compute. reflexivity. Qed.

Lemma price_degrades_to_null_witness :
  let entries := [ sample_entry "Common Stock";
                   sample_priced_entry "Class A Common Stock";
                   sample_priced_entry "Stock Option" ] in
  let data := three_transaction_document in
  let recs := [ sample_row "Common Stock" VNone "nonDerivativeTable";
                sample_row "Class A Common Stock" (VStr "12.50")
                  "nonDerivativeTable" ] in
  Forall (processable data "ABC") entries
  ∧ is_ok (extract_data data "nonDerivativeTable" "ABC") = true
  ∧ extract_data data "nonDerivativeTable" "ABC" = Ok recs
  ∧ unreadable (sample_entry "Common Stock") price_path
  ∧ (∃ r, r ∈ recs
          ∧ emitted_from data "nonDerivativeTable" "ABC"
              (sample_entry "Common Stock") r
          ∧ transactionPricePerShare r = VNone)
  ∧ (∃ r, r ∈ recs
          ∧ emitted_from data "nonDerivativeTable" "ABC"
              (sample_priced_entry "Class A Common Stock") r
          ∧ transactionPricePerShare r = VStr "12.50")
  ∧ ∀ r, r ∈ recs →
      ∃ d, d ∈ entries
           ∧ emitted_from data "nonDerivativeTable" "ABC" d r
           ∧ (unreadable d price_path → transactionPricePerShare r = VNone)
           ∧ (∀ p, get_path d price_path = Ok p →
                   transactionPricePerShare r = p).
Proof.
  intros entries data recs.
  assert (Hds : Forall (processable data "ABC") entries).
  { apply Forall_cons_2; [|apply Forall_cons_2; [|apply Forall_cons_2;
      [|apply Forall_nil_2]]].
    - right. split; [vm_compute; reflexivity|].
      split; repeat (apply Forall_cons_2; [vm_compute; reflexivity|]);
        apply Forall_nil_2.
    - right. split; [vm_compute; reflexivity|].
      split; repeat (apply Forall_cons_2; [vm_compute; reflexivity|]);
        apply Forall_nil_2.
    - left. vm_compute. reflexivity. }
  assert (Hrecs : extract_data data "nonDerivativeTable" "ABC" = Ok recs)
    by (vm_compute; reflexivity).
  destruct (price_degrades_to_null data "nonDerivativeTable" "ABC"
              (VList entries)) as (Hreturns & Hentry & Hrow).
  - by right.
  - vm_compute. reflexivity.
  - split; [exact Hds|]. split; [exact (proj2 Hreturns Hds)|].
    split; [exact Hrecs|]. split; [reflexivity|]. split_and!.
    + destruct (Hentry recs (sample_entry "Common Stock") Hrecs)
        as (r & Hin & Hr & Hnull & _).
      * apply list_elem_of_here.
      * vm_compute. reflexivity.
      * exists r. split; [exact Hin|]. split; [exact Hr|].
        apply Hnull. reflexivity.
    + destruct (Hentry recs (sample_priced_entry "Class A Common Stock") Hrecs)
        as (r & Hin & Hr & _ & Hval).
      * apply list_elem_of_further, list_elem_of_here.
      * vm_compute. reflexivity.
      * exists r. split; [exact Hin|]. split; [exact Hr|].
        apply Hval. vm_compute. reflexivity.
    + intros r. exact (Hrow recs r Hrecs).
Defined.

(** C10. When an entry of the transaction list passes the filter and one of
    the fields the row is built from, in the entry or in the issuer block,
    cannot be read, the extractor raises a lookup fault: no row with a null
    in that field is emitted. *)
Theorem mandatory_fields_required (data : value) (kind cik_name : string)
    (v d : value) :
  is_table_kind kind →
  get_path data (transactions_path kind) = Ok v →
  d ∈ as_list v →
  emission_filter data d cik_name = Ok true →
  Exists (unreadable d) entry_fields ∨ Exists (unreadable data) issuer_fields →
  ∃ e, extract_data data kind cik_name = Err e ∧ lookup_fault e.
Proof.
  intros Hk Hv Hd Hpass Hmiss.
  rewrite (extract_data_located _ _ _ _ Hk Hv).
  assert (Hraise : ∀ acc, is_ok (extract_step data kind cik_name acc d) = false).
  { intros acc. unfold extract_step. rewrite Hpass. cbn [bind].
    destruct (make_record data d (read_price d) kind) as [r|e] eqn:E; [|done].
    assert (Hok : is_ok (make_record data d (read_price d) kind) = true)
      by by rewrite E.
    apply make_record_readable in Hok as [Hissuer Hentry].
    rewrite Forall_forall in Hissuer, Hentry. unfold unreadable, readable in *.
    destruct Hmiss as [Hmiss | Hmiss];
      apply Exists_exists in Hmiss as (p & Hp & Hbad).
    - rewrite (Hentry p Hp) in Hbad. discriminate.
    - rewrite (Hissuer p Hp) in Hbad. discriminate. }
  pose proof (for_each_raises _ _ _ [] Hd Hraise) as Hloop.
  destruct (for_each _ (as_list v) []) as [recs|e] eqn:E; [discriminate|].
  exists e. split; [done|]. by eapply for_each_extract_step_fault.
Qed.

Lemma mandatory_fields_required_witness :
  ∃ e, extract_data
         (single_transaction_document (sample_undated_entry "Common Stock"))
         "nonDerivativeTable" "ABC" = Err e
       ∧ lookup_fault e.
Proof.
  apply (mandatory_fields_required
           (single_transaction_document (sample_undated_entry "Common Stock"))
           "nonDerivativeTable" "ABC"
           (sample_undated_entry "Common Stock")
           (sample_undated_entry "Common Stock")).
  - by right.
  - vm_compute. reflexivity.
  - apply list_elem_of_here.
  - vm_compute. reflexivity.
  - left. apply Exists_cons_tl, Exists_cons_hd. vm_compute. reflexivity.
Defined.

(** The entry without a date makes the extractor raise [KeyError]; with the
    date there, the same entry gives a row. *)
Example undated_entry_raises :
  extract_data
    (single_transaction_document (sample_undated_entry "Common Stock"))
    "nonDerivativeTable" "ABC" = Err KeyError.
Proof. vm_compute. reflexivity. Qed.

(** ** The Form 4 locator *)

Lemma form_4_row_scannable (col_list : list td) (c2 : td) :
  col_list !! 2 = Some c2 → form_4_row col_list = Ok (form_4_row_rule col_list).
Proof.
  intros H2. destruct col_list as [|c0 [|c1 rest]]; try discriminate.
  unfold form_4_row, form_4_row_rule, index.
  change ((c0 :: c1 :: rest) !! 1) with (Some c1). rewrite H2. cbn [bind].
  destruct (str_in "FORM 4" (text c1)); cbn [bind orb andb].
  - by rewrite index_last_split.
  - destruct (str_in "form4" (text c2)); cbn [bind andb]; [|done].
    by rewrite index_last_split.
Qed.

Lemma scan_rows_find (rows : list tr) :
  Forall scannable rows →
  scan_rows rows
  = Ok (match List.find (λ row, form_4_row_rule (find_all_td row)) rows with
        | Some row => document_link (find_all_td row)
        | None => None
        end).
Proof.
  induction 1 as [|row rows (c2 & H2 & Ha) _ IH]; [done|].
  cbn [scan_rows List.find]. rewrite (form_4_row_scannable _ _ H2). cbn [bind].
  destruct (form_4_row_rule (find_all_td row)); [|exact IH].
  destruct (Ha eq_refl) as [a Hfind].
  unfold index, document_link. rewrite H2. cbn [bind]. by rewrite Hfind.
Qed.

(** C1, as the code has it: on an index page whose rows after the header can
    be scanned (each has its three cells, and an anchor in the document cell
    when it passes the test), [get_form_4_url] returns the anchor target of
    the first row, in order, such that cell 1 contains "FORM 4" or cell 2
    contains "form4", and the text of cell 2 split on [.] ends with "xml";
    it returns [None] when no row is such. *)
Theorem get_form_4_url_first_match {content : Type}
    (requests_get : string → gmap string string → result content)
    (BeautifulSoup : content → soup)
    (url : string) (headers : gmap string string)
    (page : content) (tbl : table) :
  requests_get url headers = Ok page →
  find_table (BeautifulSoup page) = Some tbl →
  Forall scannable (drop 1 (find_all_tr tbl)) →
  (∃ row, first_match (λ row, form_4_row_rule (find_all_td row))
            (drop 1 (find_all_tr tbl)) row
          ∧ get_form_4_url requests_get BeautifulSoup url headers
            = Ok (document_link (find_all_td row)))
  ∨ (Forall (λ row, form_4_row_rule (find_all_td row) = false)
       (drop 1 (find_all_tr tbl))
     ∧ get_form_4_url requests_get BeautifulSoup url headers = Ok None).
Proof.
  intros Hget Htbl Hrows. unfold get_form_4_url, get_table_rows.
  rewrite Hget. cbn [bind]. rewrite Htbl. cbn [attr bind].
  rewrite (scan_rows_find _ Hrows).
  destruct (List.find _ _) as [row|] eqn:E.
  - left. exists row. split; [by apply find_first_match | done].
  - right. split; [by apply find_none_Forall | done].
Qed.

Lemma get_form_4_url_first_match_witness :
  let rows := [ index_row "1" "FORM 4" "a.txt" "a.txt";
                index_row "2" "SEC FORM 4" "doc.xml" "a.xml";
                index_row "3" "FORM 4" "form4.xml" "b.xml" ] in
  let site : gmap string sample_body := {[ "u" := index_page rows ]} in
  (∃ row, first_match (λ row, form_4_row_rule (find_all_td row)) rows row
          ∧ get_form_4_url (sample_get site) sample_soup "u" ∅
            = Ok (document_link (find_all_td row)))
  ∨ (Forall (λ row, form_4_row_rule (find_all_td row) = false) rows
     ∧ get_form_4_url (sample_get site) sample_soup "u" ∅ = Ok None).
Proof.
  intros rows site.
  apply (get_form_4_url_first_match (sample_get site) sample_soup "u" ∅
           (index_page rows) (Table [] (Tr [] :: rows))).
  - reflexivity.
  - reflexivity.
  - cbn [drop find_all_tr rows].
    repeat (apply Forall_cons_2; [eexists; split; [reflexivity | by eauto]|]).
    apply Forall_nil_2.
Defined.

(** On that page the second row is the first to pass. *)
Example second_row_is_returned :
  get_form_4_url
    (sample_get {[ "u" := index_page
                            [ index_row "1" "FORM 4" "a.txt" "a.txt";
                              index_row "2" "SEC FORM 4" "doc.xml" "a.xml";
                              index_row "3" "FORM 4" "form4.xml" "b.xml" ] ]})
    sample_soup "u" ∅
  = Ok (Some "a.xml").
Proof. vm_compute. reflexivity. Qed.

(** C1, as stated, fails twice.  A row whose cell 1 reads "FORM 4/A" does not
    equal "FORM 4", and its cell 2 does not contain "form4": no row passes
    the stated test, yet the link of that row is returned.  And a row of two
    cells passes no test, yet the scan raises instead of returning [None]. *)
Lemma get_form_4_url_counterexample :
  (let rows := [index_row "1" "FORM 4/A" "doc.xml" "a.xml"] in
   Forall (λ row, form_4_row_as_stated (find_all_td row) = false) rows
   ∧ get_form_4_url (sample_get {[ "u" := index_page rows ]}) sample_soup "u" ∅
     = Ok (Some "a.xml"))
  ∧ (let rows := [Tr [Td "1" None; Td "FORM 4" None]] in
     Forall (λ row, form_4_row_as_stated (find_all_td row) = false) rows
     ∧ get_form_4_url (sample_get {[ "u" := index_page rows ]}) sample_soup "u" ∅
       = Err IndexError).
Proof.
  split; cbn zeta; (split; [by repeat constructor | vm_compute; reflexivity]).
Qed.

(** The two rows of the test of the specification. *)
Example form_4_row_of_specification :
  get_form_4_url
    (sample_get {[ "u" := index_page [index_row "1" "FORM 4" "form4.xml" "a.xml"] ]})
    sample_soup "u" ∅ = Ok (Some "a.xml")
  ∧ get_form_4_url
      (sample_get {[ "u" := index_page [index_row "1" "FORM 4" "a.txt" "a.txt"] ]})
      sample_soup "u" ∅ = Ok None.
Proof. split; vm_compute; reflexivity. Qed.

(** ** The listing parser *)

(** C4, as the code has it: on a page without a table [get_urls] raises
    [AttributeError]; on a page with one it returns the targets of the
    anchors of the first table, in document order. *)
Theorem get_urls_needs_table {content : Type}
    (requests_get : string → gmap string string → result content)
    (BeautifulSoup : content → soup)
    (url : string) (headers : gmap string string) (page : content) :
  requests_get url headers = Ok page →
  (find_table (BeautifulSoup page) = None →
   get_urls requests_get BeautifulSoup url headers = Err AttributeError)
  ∧ (∀ tbl, find_table (BeautifulSoup page) = Some tbl →
            get_urls requests_get BeautifulSoup url headers
            = Ok (map href (find_all_a tbl))).
Proof.
  intros Hget. unfold get_urls. rewrite Hget. cbn [bind].
  split; [intros -> | intros tbl ->]; reflexivity.
Qed.

Lemma get_urls_needs_table_witness :
  find_table (sample_soup bare_page) = None
  ∧ get_urls (sample_get {[ "u" := bare_page ]}) sample_soup "u" ∅
    = Err AttributeError.
Proof.
  split; [reflexivity|].
  apply (get_urls_needs_table (sample_get {[ "u" := bare_page ]}) sample_soup
           "u" ∅ bare_page); reflexivity.
Defined.

(** C4, as stated, fails: the page has no table and [get_urls] does not
    return the empty list. *)
Lemma get_urls_counterexample :
  find_table (sample_soup bare_page) = None
  ∧ get_urls (sample_get {[ "u" := bare_page ]}) sample_soup "u" ∅
    = Err AttributeError
  ∧ get_urls (sample_get {[ "u" := bare_page ]}) sample_soup "u" ∅ ≠ Ok [].
Proof. split_and!; [done | by vm_compute | by vm_compute]. Qed.

(** ** The orchestrator *)

(** A folder whose listing has no index link: [find_index_file] returns
    [None] and the concatenation with [base_url] raises. *)
Lemma load_folder_without_index {content : Type}
    (requests_get : string → gmap string string → result content)
    (BeautifulSoup : content → soup)
    (xmltodict_parse : content → result value)
    (base_url : string) (headers : gmap string string) (cik_name : string)
    (final_data_df : data_frame) (folder_url : string)
    (file_url_list : list string) :
  get_urls requests_get BeautifulSoup (base_url +:+ folder_url) headers
  = Ok (Some <$> file_url_list) →
  Forall (λ url, is_index_link url = false) file_url_list →
  load_folder requests_get BeautifulSoup xmltodict_parse base_url headers
    cik_name final_data_df (Some folder_url)
  = Err TypeError.
Proof.
  intros Hurls Hnone. unfold load_folder. cbn [str_add bind].
  rewrite Hurls. cbn [bind]. rewrite find_index_file_find.
  apply find_none_Forall in Hnone. by rewrite Hnone.
Qed.

(** C5 fails on the code: with one filing folder that lists no index page,
    the crawl raises [TypeError] instead of skipping the folder. *)
Theorem load_data_without_index_raises :
  load_data (sample_get site_without_index) sample_soup sample_xml
    [("ABC", "0000123456")] "https://sec.test" "/cgi-bin/browse?CIK=" ∅
  = Err TypeError.
Proof. vm_compute. reflexivity. Qed.

(** With the index page in place the same crawl returns the one row. *)
Example load_data_with_index :
  load_data (sample_get site_with_index) sample_soup sample_xml
    [("ABC", "0000123456")] "https://sec.test" "/cgi-bin/browse?CIK=" ∅
  = Ok [sample_row "Common Stock" VNone "nonDerivativeTable"].
Proof. vm_compute. reflexivity. Qed.

(** * Further properties of the code *)

(** ** The extractor, entry by entry *)

(** The loop emits one row per passing entry, in the order of the entries. *)
Lemma for_each_extract_step_rows (data : value) (kind cik_name : string)
    (ds : list value) (acc recs : data_frame) :
  for_each (extract_step data kind cik_name) ds acc = Ok recs →
  ∃ new, recs = acc ++ new
         ∧ Forall2 (emitted_from data kind cik_name)
             (List.filter (passes_filter data cik_name) ds) new.
Proof.
  revert acc. induction ds as [|d ds IH]; intros acc H; cbn [for_each] in H.
  - injection H as <-. exists []. split; [by rewrite app_nil_r | constructor].
  - apply bind_ok in H as (acc' & Hstep & H).
    apply IH in H as (new & -> & Hnew).
    cbn [List.filter]. unfold passes_filter at 1.
    apply extract_step_inv in Hstep as [[Hskip ->] | (r & Hr & ->)].
    + rewrite Hskip. eauto.
    + rewrite (proj1 Hr). exists (r :: new).
      split; [by rewrite <- app_assoc | by constructor].
Qed.

(** X1. The rows [extract_data] returns are the rows built from the entries
    that pass the filter, one per entry and in the order of the transaction
    list: as many rows as passing entries. *)
Theorem extract_data_rows_in_entry_order (data : value)
    (kind cik_name : string) (v : value) (recs : data_frame) :
  is_table_kind kind →
  get_path data (transactions_path kind) = Ok v →
  extract_data data kind cik_name = Ok recs →
  Forall2 (emitted_from data kind cik_name)
    (List.filter (passes_filter data cik_name) (as_list v)) recs
  ∧ List.length recs = List.length (List.filter (passes_filter data cik_name) (as_list v)).
Proof.
  intros Hk Hv H. rewrite (extract_data_located _ _ _ _ Hk Hv) in H.
  apply for_each_extract_step_rows in H as (new & -> & Hnew).
  split; [done|]. symmetry. by eapply Forall2_length.
Qed.

Lemma extract_data_rows_in_entry_order_witness :
  let entries := [ sample_entry "Common Stock";
                   sample_priced_entry "Class A Common Stock";
                   sample_priced_entry "Stock Option" ] in
  let recs := [ sample_row "Common Stock" VNone "nonDerivativeTable";
                sample_row "Class A Common Stock" (VStr "12.50")
                  "nonDerivativeTable" ] in
  Forall2 (emitted_from three_transaction_document "nonDerivativeTable" "ABC")
    (List.filter (passes_filter three_transaction_document "ABC") entries) recs
  ∧ List.length recs
    = List.length (List.filter (passes_filter three_transaction_document "ABC")
                entries).
Proof.
  intros entries recs.
  apply (extract_data_rows_in_entry_order three_transaction_document
           "nonDerivativeTable" "ABC" (VList entries) recs).
  - by right.
  - vm_compute. reflexivity.
  - vm_compute. reflexivity.
Defined.

(** Each row is tagged with the table name and carries the issuer block of
    the document. *)
Lemma extract_data_row (data : value) (kind cik_name : string)
    (recs : data_frame) (r : transaction_record) :
  extract_data data kind cik_name = Ok recs → r ∈ recs →
  derivative_type r = kind
  ∧ row_of_entity cik_name r
  ∧ get_path data ["ownershipDocument"; "issuer"; "issuerCik"]
    = Ok (issuerCik r)
  ∧ get_path data ["ownershipDocument"; "issuer"; "issuerName"]
    = Ok (issuerName r).
Proof.
  intros H Hin.
  destruct (extract_data_emitted _ _ _ _ _ H Hin)
    as (Hk & v & d & _ & _ & Hpass & Hrow).
  apply emission_filter_inv in Hpass as (title & Ht & Hcs & Hsym).
  apply make_record_inv in Hrow
    as (Hcik & Hname & Hs & Ht' & _ & _ & _ & _ & Htag).
  unfold row_of_entity. rewrite Htag.
  split_and!; [done | congruence | congruence | done | done | done].
Qed.

(** X2. With a table name other than the two the code knows, the extractor
    returns the empty frame when the ownership root has no such key, and
    raises [UnboundLocalError] when the root holds a value other than [None]
    under that name: [derivatives_data] is read without having been bound. *)
Theorem extract_data_unknown_table (top doc : gmap string value)
    (kind cik_name : string) :
  ¬ is_table_kind kind →
  top !! "ownershipDocument" = Some (VDict doc) →
  (doc !! kind = None → extract_data (VDict top) kind cik_name = Ok [])
  ∧ (∀ v, doc !! kind = Some v → not_none v = true →
          extract_data (VDict top) kind cik_name = Err UnboundLocalError).
Proof.
  intros Hk Htop. unfold extract_data, table_present.
  cbn [get_path for_each]. rewrite !(get_item_lookup _ _ _ Htop).
  cbn [bind py_in]. split.
  - intros Hnone.
    rewrite Hnone, bool_decide_eq_false_2 by (by intros [? ?]). reflexivity.
  - intros v Hv Hnn. rewrite Hv, bool_decide_eq_true_2 by eauto.
    rewrite (get_item_lookup _ _ _ Hv). cbn [bind]. rewrite Hnn.
    by rewrite (select_transactions_other _ _ _ Hk).
Qed.

Lemma extract_data_unknown_table_witness :
  extract_data (sample_document "ABC" []) "reportingOwner" "ABC" = Ok []
  ∧ extract_data (sample_document "ABC" []) "issuer" "ABC"
    = Err UnboundLocalError.
Proof.
  assert (Hk : ∀ kind, kind ≠ "derivativeTable" → kind ≠ "nonDerivativeTable" →
               ¬ is_table_kind kind) by (intros kind ? ? [?|?]; done).
  split.
  - apply (extract_data_unknown_table (sample_top "ABC" [])
             (<["issuer" := sample_issuer "ABC"]> ∅) "reportingOwner" "ABC");
      [by apply Hk | reflexivity | reflexivity].
  - apply (extract_data_unknown_table (sample_top "ABC" [])
             (<["issuer" := sample_issuer "ABC"]> ∅) "issuer" "ABC"
             (Hk "issuer" ltac:(done) ltac:(done)) eq_refl)
      with (v := sample_issuer "ABC"); reflexivity.
Defined.

(** X3. The root is not optional: without the key [ownershipDocument] the
    extractor raises [KeyError], and with an empty root element, which
    [xmltodict] returns as [None], it raises [TypeError]. *)
Theorem extract_data_needs_root (top : gmap string value)
    (kind cik_name : string) :
  (top !! "ownershipDocument" = None →
   extract_data (VDict top) kind cik_name = Err KeyError)
  ∧ (top !! "ownershipDocument" = Some VNone →
     extract_data (VDict top) kind cik_name = Err TypeError).
Proof.
  unfold extract_data, table_present. cbn [get_path for_each get_item].
  split; intros ->; reflexivity.
Qed.

(** X4. Entries whose title does not hold "Common Stock" are dropped before
    the issuer block is looked at: when no title of the transaction list
    holds it, the extractor returns the empty frame, whether or not the
    document has an issuer block and whatever else the entries lack. *)
Theorem no_common_stock_gives_empty (data : value) (kind cik_name : string)
    (v : value) :
  is_table_kind kind →
  get_path data (transactions_path kind) = Ok v →
  Forall (λ d, title_tested d false) (as_list v) →
  extract_data data kind cik_name = Ok [].
Proof.
  intros Hk Hv Hds. rewrite (extract_data_located _ _ _ _ Hk Hv).
  induction Hds as [|d ds (title & Ht & Hin) _ IH]; [done|].
  cbn [for_each]. rewrite extract_step_skip; [exact IH|].
  unfold emission_filter. by rewrite Ht; cbn [bind]; rewrite Hin.
Qed.

Lemma no_common_stock_gives_empty_witness :
  is_ok (get_path issuerless_document ["ownershipDocument"; "issuer"]) = false
  ∧ extract_data issuerless_document "nonDerivativeTable" "ABC" = Ok [].
Proof.
  split; [reflexivity|].
  apply (no_common_stock_gives_empty issuerless_document "nonDerivativeTable"
           "ABC" (sample_entry "Stock Option")).
  - by right.
  - vm_compute. reflexivity.
  - apply Forall_cons_2; [|apply Forall_nil_2].
    exists (VStr "Stock Option"). split; vm_compute; reflexivity.
Defined.

(** X5. When the issuer trading symbol of the document is not the entity
    key, the extractor returns the empty frame as soon as every title can be
    tested: the other fields of the entries are never read, so entries that
    lack them raise nothing. *)
Theorem other_issuer_gives_empty (data : value) (kind cik_name : string)
    (v symbol : value) :
  is_table_kind kind →
  get_path data (transactions_path kind) = Ok v →
  get_path data ["ownershipDocument"; "issuer"; "issuerTradingSymbol"]
  = Ok symbol →
  eq_str symbol cik_name = false →
  Forall (λ d, ∃ outcome, title_tested d outcome) (as_list v) →
  extract_data data kind cik_name = Ok [].
Proof.
  intros Hk Hv Hsym Hne Hds. rewrite (extract_data_located _ _ _ _ Hk Hv).
  induction Hds as [|d ds (outcome & title & Ht & Hin) _ IH]; [done|].
  cbn [for_each]. rewrite extract_step_skip; [exact IH|].
  unfold emission_filter. rewrite Ht; cbn [bind]; rewrite Hin; cbn [bind].
  destruct outcome; [|done]. by rewrite Hsym; cbn [bind]; rewrite Hne.
Qed.

Lemma other_issuer_gives_empty_witness :
  unreadable (sample_undated_entry "Common Stock") ["transactionDate"; "value"]
  ∧ extract_data other_issuer_document "nonDerivativeTable" "ABC" = Ok [].
Proof.
  split; [reflexivity|].
  apply (other_issuer_gives_empty other_issuer_document "nonDerivativeTable"
           "ABC" (sample_undated_entry "Common Stock") (VStr "XYZ")).
  - by right.
  - vm_compute. reflexivity.
  - vm_compute. reflexivity.
  - reflexivity.
  - apply Forall_cons_2; [|apply Forall_nil_2].
    exists true, (VStr "Common Stock"). split; vm_compute; reflexivity.
Defined.

(** X6. A table that occurs more than once in the document is seen as a list
    of tables; the membership test for the transaction key then fails on it
    and the extractor returns the empty frame: the transactions of all these
    tables are dropped without a fault. *)
Theorem repeated_table_gives_empty (top doc : gmap string value)
    (kind cik_name : string) (tables : list value) :
  is_table_kind kind →
  top !! "ownershipDocument" = Some (VDict doc) →
  doc !! kind = Some (VList tables) →
  Forall (λ t, ∃ d, t = VDict d) tables →
  extract_data (VDict top) kind cik_name = Ok [].
Proof.
  intros Hk Htop Hdoc Htables. unfold extract_data, table_present.
  cbn [get_path for_each]. rewrite !(get_item_lookup _ _ _ Htop).
  cbn [bind py_in]. rewrite Hdoc, bool_decide_eq_true_2 by eauto.
  rewrite (get_item_lookup _ _ _ Hdoc). cbn [bind not_none].
  rewrite (select_transactions_kind _ _ _ Hk).
  cbn [get_path for_each]. rewrite (get_item_lookup _ _ _ Htop). cbn [bind].
  rewrite (get_item_lookup _ _ _ Hdoc). cbn [bind py_in].
  assert (existsb (λ x, eq_str x (transaction_key kind)) tables = false) as ->;
    [|done].
  clear Hdoc. induction Htables as [|t tables [d ->] _ IH]; [done|]. exact IH.
Qed.

Lemma repeated_table_gives_empty_witness :
  extract_data repeated_table_document "nonDerivativeTable" "ABC" = Ok [].
Proof.
  pose (tables := [ VDict {[ "nonDerivativeTransaction" :=
                               sample_entry "Common Stock" ]};
                    VDict {[ "nonDerivativeTransaction" :=
                               sample_priced_entry "Common Stock" ]} ]).
  apply (repeated_table_gives_empty
           (sample_top "ABC" [("nonDerivativeTable", VList tables)])
           (<["issuer" := sample_issuer "ABC"]>
              (list_to_map [("nonDerivativeTable", VList tables)]))
           "nonDerivativeTable" "ABC" tables).
  - by right.
  - reflexivity.
  - reflexivity.
  - repeat (apply Forall_cons_2; [by eexists|]). apply Forall_nil_2.
Defined.

(** ** The two tables of a document *)

Lemma parse_xml_url_inv {content : Type}
    (requests_get : string → gmap string string → result content)
    (xmltodict_parse : content → result value)
    (url : string) (headers : gmap string string) (cik_name : string)
    (rows : data_frame) :
  parse_xml_url requests_get xmltodict_parse url headers cik_name = Ok rows →
  ∃ page data derivative non_derivative,
    requests_get url headers = Ok page
    ∧ xmltodict_parse page = Ok data
    ∧ extract_data data "derivativeTable" cik_name = Ok derivative
    ∧ extract_data data "nonDerivativeTable" cik_name = Ok non_derivative
    ∧ rows = derivative ++ non_derivative.
Proof.
  unfold parse_xml_url. intros H.
  apply bind_ok in H as (page & Hpage & H).
  apply bind_ok in H as (data & Hdata & H).
  apply bind_ok in H as (a & Ha & H).
  apply bind_ok in H as (b & Hb & [= <-]).
  by exists page, data, a, b.
Qed.

(** X7. The frame [parse_xml_url] returns holds the rows of the derivative
    table first and those of the non-derivative table after them, each part
    in the order of its transaction list: every row tagged "derivativeTable"
    comes before every row tagged "nonDerivativeTable", and the frame has as
    many rows as the two extractions together. *)
Theorem parse_xml_url_derivative_first {content : Type}
    (requests_get : string → gmap string string → result content)
    (xmltodict_parse : content → result value)
    (url : string) (headers : gmap string string) (cik_name : string)
    (rows : data_frame) :
  parse_xml_url requests_get xmltodict_parse url headers cik_name = Ok rows →
  ∃ page data derivative non_derivative,
    requests_get url headers = Ok page
    ∧ xmltodict_parse page = Ok data
    ∧ extract_data data "derivativeTable" cik_name = Ok derivative
    ∧ extract_data data "nonDerivativeTable" cik_name = Ok non_derivative
    ∧ rows = derivative ++ non_derivative
    ∧ Forall (λ r, derivative_type r = "derivativeTable") derivative
    ∧ Forall (λ r, derivative_type r = "nonDerivativeTable") non_derivative
    ∧ List.length rows
      = List.length derivative + List.length non_derivative.
Proof.
  intros H. apply parse_xml_url_inv in H as (page & data & a & b & H).
  destruct H as (Hpage & Hdata & Ha & Hb & ->).
  exists page, data, a, b. split_and!; try done.
  - apply Forall_forall. intros r Hr.
    by destruct (extract_data_row _ _ _ _ _ Ha Hr) as [? _].
  - apply Forall_forall. intros r Hr.
    by destruct (extract_data_row _ _ _ _ _ Hb Hr) as [? _].
  - apply length_app.
Qed.

(** X8. All rows [parse_xml_url] returns for one document carry the same
    issuer block, the one of the document, and its trading symbol is the
    entity key. *)
Theorem parse_xml_url_one_issuer {content : Type}
    (requests_get : string → gmap string string → result content)
    (xmltodict_parse : content → result value)
    (url : string) (headers : gmap string string) (cik_name : string)
    (rows : data_frame) (r r' : transaction_record) :
  parse_xml_url requests_get xmltodict_parse url headers cik_name = Ok rows →
  r ∈ rows → r' ∈ rows →
  same_issuer r r' ∧ issuerTradingSymbol r = VStr cik_name.
Proof.
  intros H Hr Hr'. apply parse_xml_url_inv in H as (page & data & a & b & H).
  destruct H as (_ & _ & Ha & Hb & ->).
  assert (Hrow : ∀ x, x ∈ a ++ b →
            row_of_entity cik_name x
            ∧ get_path data ["ownershipDocument"; "issuer"; "issuerCik"]
              = Ok (issuerCik x)
            ∧ get_path data ["ownershipDocument"; "issuer"; "issuerName"]
              = Ok (issuerName x)).
  { intros x Hx. apply elem_of_app in Hx as [Hx | Hx].
    - by destruct (extract_data_row _ _ _ _ _ Ha Hx) as [_ ?].
    - by destruct (extract_data_row _ _ _ _ _ Hb Hx) as [_ ?]. }
  destruct (Hrow r Hr) as ((Hs & _) & Hc & Hn).
  destruct (Hrow r' Hr') as ((Hs' & _) & Hc' & Hn').
  unfold same_issuer. split_and!; congruence.
Qed.

Lemma parse_xml_url_derivative_first_witness :
  let site : gmap string sample_body := {[ "u" := Xml two_table_document ]} in
  ∃ page data derivative non_derivative,
    sample_get site "u" ∅ = Ok page
    ∧ sample_xml page = Ok data
    ∧ extract_data data "derivativeTable" "ABC" = Ok derivative
    ∧ extract_data data "nonDerivativeTable" "ABC" = Ok non_derivative
    ∧ [ sample_row "Common Stock Warrant" (VStr "12.50") "derivativeTable";
        sample_row "Common Stock" VNone "nonDerivativeTable";
        sample_row "Class A Common Stock" (VStr "12.50") "nonDerivativeTable" ]
      = derivative ++ non_derivative
    ∧ Forall (λ r, derivative_type r = "derivativeTable") derivative
    ∧ Forall (λ r, derivative_type r = "nonDerivativeTable") non_derivative
    ∧ 3 = List.length derivative + List.length non_derivative.
Proof.
  intros site.
  apply (parse_xml_url_derivative_first (sample_get site) sample_xml "u" ∅
           "ABC").
  vm_compute. reflexivity.
Defined.

Lemma parse_xml_url_one_issuer_witness :
  let r := sample_row "Common Stock Warrant" (VStr "12.50") "derivativeTable" in
  let r' := sample_row "Common Stock" VNone "nonDerivativeTable" in
  same_issuer r r' ∧ issuerTradingSymbol r = VStr "ABC".
Proof.
  intros r r'.
  apply (parse_xml_url_one_issuer
           (sample_get {[ "u" := Xml two_table_document ]}) sample_xml "u" ∅
           "ABC"
           [ r; r';
             sample_row "Class A Common Stock" (VStr "12.50")
               "nonDerivativeTable" ]).
  - vm_compute. reflexivity.
  - apply list_elem_of_here.
  - apply list_elem_of_further, list_elem_of_here.
Defined.

(** ** The index locator, link by link *)

(** X9. [find_index_file] stops at the first index link: what follows it in
    the list is not looked at, so an anchor without [href] after it is
    harmless, while one before it makes the search raise [AttributeError]. *)
Theorem find_index_file_stops_at_first (pre : list string)
    (rest : list (option string)) :
  Forall (λ url, is_index_link url = false) pre →
  (∀ url, is_index_link url = true →
          find_index_file ((Some <$> pre) ++ Some url :: rest) = Ok (Some url))
  ∧ find_index_file ((Some <$> pre) ++ None :: rest) = Err AttributeError.
Proof.
  induction 1 as [|u pre Hu _ IH]; cbn [fmap list_fmap app].
  - split; [|done]. intros url Hurl. by rewrite find_index_file_cons, Hurl.
  - change (list_fmap string (option string) Some pre) with (Some <$> pre).
    destruct IH as [IHhit IHnone]. split.
    + intros url Hurl. rewrite find_index_file_cons, Hu. by apply IHhit.
    + by rewrite find_index_file_cons, Hu.
Qed.

Lemma find_index_file_stops_at_first_witness :
  find_index_file [Some "a.txt"; Some "0001-index.html"; None] 
  = Ok (Some "0001-index.html")
  ∧ find_index_file [Some "a.txt"; None; Some "0001-index.html"]
    = Err AttributeError.
Proof.
  destruct (find_index_file_stops_at_first ["a.txt"] [None]) as [H _].
  { apply Forall_cons_2; [reflexivity | apply Forall_nil_2]. }
  destruct (find_index_file_stops_at_first ["a.txt"] [Some "0001-index.html"])
    as [_ H'].
  { apply Forall_cons_2; [reflexivity | apply Forall_nil_2]. }
  split; [exact (H "0001-index.html" eq_refl) | exact H'].
Defined.

(** X10. Whatever the list holds, a link [find_index_file] returns is one of
    the list and is "index.html" itself or ends with "-index.html"; a link
    such as "x/index.html" or "0001-index.htm" is never returned. *)
Theorem find_index_file_returns_index_suffix (url_list : list (option string))
    (url : string) :
  find_index_file url_list = Ok (Some url) →
  Some url ∈ url_list
  ∧ (url = "index.html" ∨ ∃ pre, url = pre +:+ "-index.html").
Proof.
  induction url_list as [|[u|] rest IH]; [discriminate | | discriminate].
  rewrite find_index_file_cons. destruct (is_index_link u) eqn:Hu.
  - intros [= ->]. split; [by left | by apply is_index_link_suffix].
  - intros H. destruct (IH H) as [Hin Hsuffix]. split; [by right | done].
Qed.

Lemma find_index_file_returns_index_suffix_witness :
  Some "/f1/0001-index.html" ∈ [Some "x/index.html"; Some "/f1/0001-index.html"]
  ∧ ("/f1/0001-index.html" = "index.html"
     ∨ ∃ pre, "/f1/0001-index.html" = pre +:+ "-index.html").
Proof.
  apply (find_index_file_returns_index_suffix
           [Some "x/index.html"; Some "/f1/0001-index.html"]).
  vm_compute. reflexivity.
Defined.

(** ** The Form 4 locator, row by row *)

Lemma scan_rows_skip (pre rest : list tr) :
  Forall scannable pre →
  Forall (λ row, form_4_row_rule (find_all_td row) = false) pre →
  scan_rows (pre ++ rest) = scan_rows rest.
Proof.
  induction 1 as [|row pre (c2 & H2 & _) _ IH]; [done|].
  intros [Hrow Hpre]%Forall_cons. cbn [app scan_rows].
  rewrite (form_4_row_scannable _ _ H2), Hrow. cbn [bind]. by apply IH.
Qed.

Lemma get_form_4_url_rows {content : Type}
    (requests_get : string → gmap string string → result content)
    (BeautifulSoup : content → soup)
    (url : string) (headers : gmap string string)
    (page : content) (tbl : table) :
  requests_get url headers = Ok page →
  find_table (BeautifulSoup page) = Some tbl →
  get_form_4_url requests_get BeautifulSoup url headers
  = scan_rows (drop 1 (find_all_tr tbl)).
Proof.
  intros Hget Htbl. unfold get_form_4_url, get_table_rows.
  rewrite Hget. cbn [bind]. by rewrite Htbl.
Qed.

(** X11. [get_form_4_url] never inspects the first row of the table, nor the
    rows after the first one that passes the test: whatever they hold (too
    few cells, no anchor), the link of that first passing row is returned. *)
Theorem get_form_4_url_stops_at_first {content : Type}
    (requests_get : string → gmap string string → result content)
    (BeautifulSoup : content → soup)
    (url : string) (headers : gmap string string)
    (page : content) (tbl : table) (header row : tr) (pre rest : list tr) :
  requests_get url headers = Ok page →
  find_table (BeautifulSoup page) = Some tbl →
  find_all_tr tbl = header :: pre ++ row :: rest →
  Forall scannable pre →
  Forall (λ row, form_4_row_rule (find_all_td row) = false) pre →
  scannable row →
  form_4_row_rule (find_all_td row) = true →
  get_form_4_url requests_get BeautifulSoup url headers
  = Ok (document_link (find_all_td row)).
Proof.
  intros Hget Htbl Hrows Hpre Hmiss (c2 & H2 & Ha) Hhit.
  rewrite (get_form_4_url_rows _ _ _ _ _ _ Hget Htbl), Hrows.
  change (drop 1 (header :: pre ++ row :: rest)) with (pre ++ row :: rest).
  rewrite (scan_rows_skip _ _ Hpre Hmiss). cbn [scan_rows].
  rewrite (form_4_row_scannable _ _ H2), Hhit. cbn [bind].
  destruct (Ha Hhit) as [a Hfind].
  unfold index, document_link. rewrite H2. cbn [bind]. by rewrite Hfind.
Qed.

Lemma get_form_4_url_stops_at_first_witness :
  let header := Tr [Td "Seq" None; Td "FORM 4" None;
                    Td "head.xml" (Some (Anchor (Some "head.xml")))] in
  let row := index_row "2" "FORM 4" "form4.xml" "a.xml" in
  let rows := header :: [index_row "1" "COVER" "cover.htm" "cover.htm"]
                ++ row :: [Tr []; Tr [Td "4" None]] in
  get_form_4_url (sample_get {[ "u" := Html (Soup (Some (Table [] rows))) ]})
    sample_soup "u" ∅
  = Ok (document_link (find_all_td row)).
Proof.
  intros header row rows.
  apply (get_form_4_url_stops_at_first
           (sample_get {[ "u" := Html (Soup (Some (Table [] rows))) ]})
           sample_soup "u" ∅ (Html (Soup (Some (Table [] rows))))
           (Table [] rows) header row
           [index_row "1" "COVER" "cover.htm" "cover.htm"]
           [Tr []; Tr [Td "4" None]]).
  - reflexivity.
  - reflexivity.
  - reflexivity.
  - apply Forall_cons_2; [|apply Forall_nil_2].
    eexists. split; [reflexivity | discriminate].
  - apply Forall_cons_2; [reflexivity | apply Forall_nil_2].
  - eexists. split; [reflexivity | by eauto].
  - reflexivity.
Defined.

(** X12. A row reached by the scan that has fewer than three cells makes
    [get_form_4_url] raise [IndexError], whatever its cells hold; a row
    reached that passes the test but has no anchor in its document cell
    makes it raise [AttributeError]. *)
Theorem get_form_4_url_malformed_row {content : Type}
    (requests_get : string → gmap string string → result content)
    (BeautifulSoup : content → soup)
    (url : string) (headers : gmap string string)
    (page : content) (tbl : table) (header row : tr) (pre rest : list tr) :
  requests_get url headers = Ok page →
  find_table (BeautifulSoup page) = Some tbl →
  find_all_tr tbl = header :: pre ++ row :: rest →
  Forall scannable pre →
  Forall (λ row, form_4_row_rule (find_all_td row) = false) pre →
  (List.length (find_all_td row) < 3 →
   get_form_4_url requests_get BeautifulSoup url headers = Err IndexError)
  ∧ (∀ c2, find_all_td row !! 2 = Some c2 →
           form_4_row_rule (find_all_td row) = true →
           find_a c2 = None →
           get_form_4_url requests_get BeautifulSoup url headers
           = Err AttributeError).
Proof.
  intros Hget Htbl Hrows Hpre Hmiss.
  rewrite (get_form_4_url_rows _ _ _ _ _ _ Hget Htbl), Hrows.
  change (drop 1 (header :: pre ++ row :: rest)) with (pre ++ row :: rest).
  rewrite (scan_rows_skip _ _ Hpre Hmiss). cbn [scan_rows].
  split.
  - intros Hshort. destruct (find_all_td row) as [|c0 [|c1 [|c2 cols]]];
      [done | done | | cbn in Hshort; lia].
    unfold form_4_row, index. cbn [lookup list_lookup bind].
    by destruct (str_in "FORM 4" (text c1)).
  - intros c2 H2 Hhit Hnone.
    rewrite (form_4_row_scannable _ _ H2), Hhit. cbn [bind].
    unfold index. rewrite H2. cbn [bind]. by rewrite Hnone.
Qed.

Lemma get_form_4_url_malformed_row_witness :
  let short := [Tr [Td "1" None; Td "FORM 4" None]] in
  let bare := [Tr [Td "1" None; Td "FORM 4" None; Td "form4.xml" None]] in
  get_form_4_url (sample_get {[ "u" := index_page short ]}) sample_soup "u" ∅
  = Err IndexError
  ∧ get_form_4_url (sample_get {[ "u" := index_page bare ]}) sample_soup "u" ∅
    = Err AttributeError.
Proof.
  intros short bare. split.
  - apply (get_form_4_url_malformed_row
             (sample_get {[ "u" := index_page short ]}) sample_soup "u" ∅
             (index_page short) (Table [] (Tr [] :: short)) (Tr [])
             (Tr [Td "1" None; Td "FORM 4" None]) [] []);
      [reflexivity | reflexivity | reflexivity | apply Forall_nil_2
      | apply Forall_nil_2 | cbn; lia].
  - apply (get_form_4_url_malformed_row
             (sample_get {[ "u" := index_page bare ]}) sample_soup "u" ∅
             (index_page bare) (Table [] (Tr [] :: bare)) (Tr [])
             (Tr [Td "1" None; Td "FORM 4" None; Td "form4.xml" None]) [] [])
      with (c2 := Td "form4.xml" None);
      [reflexivity | reflexivity | reflexivity | apply Forall_nil_2
      | apply Forall_nil_2 | reflexivity | reflexivity | reflexivity].
Defined.

(** X13. A table with no row at all, or with its first row only, gives
    [None]: the slice that drops the first row raises nothing on an empty
    list, and a lone first row is never tested even if it would pass. *)
Theorem get_form_4_url_header_only {content : Type}
    (requests_get : string → gmap string string → result content)
    (BeautifulSoup : content → soup)
    (url : string) (headers : gmap string string)
    (page : content) (tbl : table) :
  requests_get url headers = Ok page →
  find_table (BeautifulSoup page) = Some tbl →
  List.length (find_all_tr tbl) ≤ 1 →
  get_form_4_url requests_get BeautifulSoup url headers = Ok None.
Proof.
  intros Hget Htbl Hlen.
  rewrite (get_form_4_url_rows _ _ _ _ _ _ Hget Htbl).
  destruct (find_all_tr tbl) as [|header [|row rows]]; [done | done |].
  cbn in Hlen. lia.
Qed.

Lemma get_form_4_url_header_only_witness :
  let lone := index_row "1" "FORM 4" "form4.xml" "a.xml" in
  form_4_row_rule (find_all_td lone) = true
  ∧ get_form_4_url
      (sample_get {[ "u" := Html (Soup (Some (Table [] [lone]))) ]})
      sample_soup "u" ∅
    = Ok None.
Proof.
  intros lone. split; [reflexivity|].
  apply (get_form_4_url_header_only
           (sample_get {[ "u" := Html (Soup (Some (Table [] [lone]))) ]})
           sample_soup "u" ∅ (Html (Soup (Some (Table [] [lone]))))
           (Table [] [lone])); [reflexivity | reflexivity | cbn; lia].
Defined.

(** ** The crawl *)

(** A loop whose body only puts new rows in front of the accumulator. *)
Lemma for_each_prepend {A R} (body : list R → A → result (list R)) :
  (∀ acc x, body acc x = (let* new := body [] x in Ok (new ++ acc))) →
  ∀ xs acc,
    for_each body xs acc = (let* new := for_each body xs [] in Ok (new ++ acc)).
Proof.
  intros Hbody. induction xs as [|x xs IH]; intros acc; [done|].
  cbn [for_each]. rewrite (Hbody acc x).
  destruct (body [] x) as [new|e]; cbn [bind]; [|done].
  rewrite (IH (new ++ acc)), (IH new).
  destruct (for_each body xs []) as [new'|e]; cbn [bind]; [|done].
  by rewrite app_assoc.
Qed.

Lemma for_each_prepend_frames {A R} (body : list R → A → result (list R))
    (xs : list A) (frames : list (list R)) (acc : list R) :
  (∀ acc x, body acc x = (let* new := body [] x in Ok (new ++ acc))) →
  Forall2 (λ x frame, body [] x = Ok frame) xs frames →
  for_each body xs acc = Ok (List.concat (reverse frames) ++ acc).
Proof.
  intros Hbody Hframes. revert acc.
  induction Hframes as [|x frame xs frames Hx _ IH]; intros acc; [done|].
  cbn [for_each]. rewrite (Hbody acc x), Hx. cbn [bind]. rewrite IH.
  by rewrite reverse_cons, concat_app, <- app_assoc; cbn [List.concat];
    rewrite app_nil_r.
Qed.

Section Crawl.

Context {content : Type}.
Variable requests_get : string → gmap string string → result content.
Variable BeautifulSoup : content → soup.
Variable xmltodict_parse : content → result value.
Variables (base_url extend_url : string) (headers : gmap string string).

Lemma load_folder_prepend (cik_name : string) (acc : data_frame)
    (folder_url : option string) :
  load_folder requests_get BeautifulSoup xmltodict_parse base_url headers
    cik_name acc folder_url
  = (let* new := load_folder requests_get BeautifulSoup xmltodict_parse
                   base_url headers cik_name [] folder_url in
     Ok (new ++ acc)).
Proof.
  unfold load_folder.
  destruct (str_add base_url folder_url) as [url|e]; cbn [bind]; [|done].
  destruct (get_urls _ _ url headers) as [links|e]; cbn [bind]; [|done].
  destruct (find_index_file links) as [idx|e]; cbn [bind]; [|done].
  destruct (str_add base_url idx) as [url'|e]; cbn [bind]; [|done].
  destruct (get_form_4_url _ _ url' headers) as [[x|]|e]; cbn [bind];
    [|done|done].
  destruct (parse_xml_url _ _ _ headers cik_name) as [data_df|e]; cbn [bind];
    [|done].
  by rewrite app_nil_r.
Qed.

Lemma load_entity_prepend (acc : data_frame) (entry : string * string) :
  load_entity requests_get BeautifulSoup xmltodict_parse base_url extend_url
    headers acc entry
  = (let* new := load_entity requests_get BeautifulSoup xmltodict_parse
                   base_url extend_url headers [] entry in
     Ok (new ++ acc)).
Proof.
  destruct entry as [cik_name cik]. unfold load_entity.
  destruct (get_urls _ _ _ headers) as [folders|e]; cbn [bind]; [|done].
  apply for_each_prepend. intros acc' folder. apply load_folder_prepend.
Qed.

(** X14. A filing folder that has an index page without any Form 4 row is
    skipped: the table accumulated so far is handed on unchanged and the
    crawl goes on. *)
Theorem load_folder_skips_without_form_4 (cik_name folder_url : string)
    (acc : data_frame) (file_url_list : list string) (index_file_url : string) :
  get_urls requests_get BeautifulSoup (base_url +:+ folder_url) headers
  = Ok (Some <$> file_url_list) →
  first_match is_index_link file_url_list index_file_url →
  get_form_4_url requests_get BeautifulSoup (base_url +:+ index_file_url)
    headers = Ok None →
  load_folder requests_get BeautifulSoup xmltodict_parse base_url headers
    cik_name acc (Some folder_url)
  = Ok acc.
Proof.
  intros Hurls Hidx Hform. unfold load_folder. cbn [str_add bind].
  rewrite Hurls. cbn [bind]. rewrite find_index_file_find.
  apply find_first_match in Hidx. rewrite Hidx. cbn [bind str_add].
  by rewrite Hform.
Qed.

(** X15. Within one entity the frames of the filings are put in front of the
    table one after the other: the rows of the filing listed last come
    first, and the table the entity started from comes last. *)
Theorem load_entity_newest_first (cik_name cik : string) (acc : data_frame)
    (folder_url_list : list (option string)) (frames : list data_frame) :
  get_urls requests_get BeautifulSoup ((base_url +:+ extend_url) +:+ cik)
    headers = Ok folder_url_list →
  Forall2 (λ folder_url frame,
             load_folder requests_get BeautifulSoup xmltodict_parse base_url
               headers cik_name [] folder_url = Ok frame)
    folder_url_list frames →
  load_entity requests_get BeautifulSoup xmltodict_parse base_url extend_url
    headers acc (cik_name, cik)
  = Ok (List.concat (reverse frames) ++ acc).
Proof.
  intros Hurls Hframes. unfold load_entity. rewrite Hurls. cbn [bind].
  apply for_each_prepend_frames; [|done].
  intros acc' folder. apply load_folder_prepend.
Qed.

(** X16. The table [load_data] returns is the concatenation of the frames of
    the entities in the reverse of the registry order. *)
Theorem load_data_newest_first (cik_dict : list (string * string))
    (frames : list data_frame) :
  Forall2 (λ entry frame,
             load_entity requests_get BeautifulSoup xmltodict_parse base_url
               extend_url headers [] entry = Ok frame)
    cik_dict frames →
  load_data requests_get BeautifulSoup xmltodict_parse cik_dict base_url
    extend_url headers
  = Ok (List.concat (reverse frames)).
Proof.
  intros Hframes. unfold load_data.
  rewrite (for_each_prepend_frames _ _ frames []); [by rewrite app_nil_r| |done].
  apply load_entity_prepend.
Qed.

(** X17. One failure ends the crawl: when the listing of an entity of the
    registry cannot be read, or one of its filing folders makes the body of
    the loop raise, [load_data] raises and returns no table, whatever the
    other entities and folders gave. *)
Theorem load_data_aborts_on_failure (cik_dict : list (string * string))
    (cik_name cik : string) :
  (cik_name, cik) ∈ cik_dict →
  is_ok (get_urls requests_get BeautifulSoup
           ((base_url +:+ extend_url) +:+ cik) headers) = false
  ∨ (∃ folder_url_list folder_url,
       get_urls requests_get BeautifulSoup
         ((base_url +:+ extend_url) +:+ cik) headers = Ok folder_url_list
       ∧ folder_url ∈ folder_url_list
       ∧ is_ok (load_folder requests_get BeautifulSoup xmltodict_parse
                  base_url headers cik_name [] folder_url) = false) →
  is_ok (load_data requests_get BeautifulSoup xmltodict_parse cik_dict
           base_url extend_url headers) = false.
Proof.
  intros Hin Hfail. unfold load_data.
  apply (for_each_raises _ _ _ _ Hin). intros acc. unfold load_entity.
  destruct Hfail as [Hlist | (folders & folder & Hlist & Hfolder & Hbad)].
  - by destruct (get_urls _ _ _ headers).
  - rewrite Hlist. cbn [bind].
    apply (for_each_raises _ _ _ _ Hfolder). intros acc'.
    rewrite load_folder_prepend. by destruct (load_folder _ _ _ _ _ _ [] _).
Qed.

Lemma load_folder_rows (cik_name : string) (acc rows : data_frame)
    (folder_url : option string) (P : transaction_record → Prop) :
  (∀ r, row_of_entity cik_name r → P r) →
  Forall P acc →
  load_folder requests_get BeautifulSoup xmltodict_parse base_url headers
    cik_name acc folder_url = Ok rows →
  Forall P rows.
Proof.
  intros HP Hacc. unfold load_folder. intros H.
  apply bind_ok in H as (url & _ & H).
  apply bind_ok in H as (links & _ & H).
  apply bind_ok in H as (idx & _ & H).
  apply bind_ok in H as (url' & _ & H).
  apply bind_ok in H as ([x|] & _ & H); [|by injection H as <-].
  apply bind_ok in H as (data_df & Hparse & [= <-]).
  apply Forall_app. split; [|done].
  apply parse_xml_url_inv in Hparse as (page & data & a & b & Hparse).
  destruct Hparse as (_ & _ & Ha & Hb & ->).
  apply Forall_app. split; apply Forall_forall; intros r Hr; apply HP.
  - by destruct (extract_data_row _ _ _ _ _ Ha Hr) as (_ & ? & _).
  - by destruct (extract_data_row _ _ _ _ _ Hb Hr) as (_ & ? & _).
Qed.

Lemma for_each_invariant {A S} (body : S → A → result S) (Inv : S → Prop)
    (xs : list A) (acc res : S) :
  (∀ acc x res, x ∈ xs → Inv acc → body acc x = Ok res → Inv res) →
  Inv acc → for_each body xs acc = Ok res → Inv res.
Proof.
  revert acc. induction xs as [|x xs IH]; intros acc Hbody Hacc H.
  - by injection H as <-.
  - cbn [for_each] in H. apply bind_ok in H as (acc' & Hx & H).
    apply (IH acc'); [|by eapply Hbody; [left| |]|done].
    intros ? ? ? ?. apply Hbody. by right.
Qed.

(** X18. Every row of the table [load_data] returns belongs to an entity of
    the registry: its issuer trading symbol is the name of a registry
    entry, its title passed the test for "Common Stock" and its tag is one
    of the two table names. *)
Theorem load_data_rows_of_registry (cik_dict : list (string * string))
    (rows : data_frame) (r : transaction_record) :
  load_data requests_get BeautifulSoup xmltodict_parse cik_dict base_url
    extend_url headers = Ok rows →
  r ∈ rows →
  ∃ cik_name cik, (cik_name, cik) ∈ cik_dict ∧ row_of_entity cik_name r.
Proof.
  intros H Hr. unfold load_data in H.
  pose (P := λ r, ∃ cik_name cik,
               (cik_name, cik) ∈ cik_dict ∧ row_of_entity cik_name r).
  assert (HP : Forall P rows); [|by apply (proj1 (Forall_forall _ _) HP)].
  apply (for_each_invariant _ (Forall P) _ _ _) with (3 := H);
    [|apply Forall_nil_2].
  intros acc [cik_name cik] res Hin Hacc Hentity. unfold load_entity in Hentity.
  apply bind_ok in Hentity as (folders & _ & Hfolders).
  apply (for_each_invariant _ (Forall P) _ _ _) with (3 := Hfolders); [|done].
  intros acc' folder res' _ Hacc' Hfolder.
  apply (load_folder_rows cik_name acc' res' folder P); [|done|done].
  intros r' Hr'. by exists cik_name, cik.
Qed.

End Crawl.

Lemma load_folder_skips_without_form_4_witness :
  let acc := [sample_row "Common Stock" VNone "nonDerivativeTable"] in
  load_folder (sample_get site_without_form_4) sample_soup sample_xml
    "https://sec.test" ∅ "ABC" acc (Some "/f1/")
  = Ok acc.
Proof.
  intros acc.
  apply (load_folder_skips_without_form_4 (sample_get site_without_form_4)
           sample_soup sample_xml "https://sec.test" ∅ "ABC" "/f1/" acc
           ["/f1/0001-index.html"; "/f1/8k.htm"] "/f1/0001-index.html").
  - vm_compute. reflexivity.
  - exists [], ["/f1/8k.htm"].
    split; [reflexivity | split; [reflexivity | apply Forall_nil_2]].
  - vm_compute. reflexivity.
Defined.

Lemma load_entity_newest_first_witness :
  let first := sample_row "Common Stock" VNone "nonDerivativeTable" in
  let second := sample_row "Class A Common Stock" (VStr "12.50")
                  "nonDerivativeTable" in
  load_entity (sample_get site_two_filings) sample_soup sample_xml
    "https://sec.test" "/cgi-bin/browse?CIK=" ∅ [] ("ABC", "0000123456")
  = Ok [second; first].
Proof.
  intros first second.
  apply (load_entity_newest_first (sample_get site_two_filings) sample_soup
           sample_xml "https://sec.test" "/cgi-bin/browse?CIK=" ∅
           "ABC" "0000123456" [] [Some "/f1/"; Some "/f2/"]
           [[first]; [second]]).
  - vm_compute. reflexivity.
  - apply Forall2_cons_2; [vm_compute; reflexivity|].
    apply Forall2_cons_2; [vm_compute; reflexivity|]. apply Forall2_nil_2.
Defined.

Lemma load_data_newest_first_witness :
  load_data (sample_get site_two_entities) sample_soup sample_xml
    [("ABC", "0000123456"); ("XYZ", "0000654321")]
    "https://sec.test" "/cgi-bin/browse?CIK=" ∅
  = Ok [ sample_row_xyz;
         sample_row "Common Stock" VNone "nonDerivativeTable" ].
Proof.
  apply (load_data_newest_first (sample_get site_two_entities) sample_soup
           sample_xml "https://sec.test" "/cgi-bin/browse?CIK=" ∅
           [("ABC", "0000123456"); ("XYZ", "0000654321")]
           [ [sample_row "Common Stock" VNone "nonDerivativeTable"];
             [sample_row_xyz] ]).
  apply Forall2_cons_2; [vm_compute; reflexivity|].
  apply Forall2_cons_2; [vm_compute; reflexivity|]. apply Forall2_nil_2.
Defined.

Lemma load_data_aborts_on_failure_witness :
  load_entity (sample_get site_with_index) sample_soup sample_xml
    "https://sec.test" "/cgi-bin/browse?CIK=" ∅ [] ("ABC", "0000123456")
  = Ok [sample_row "Common Stock" VNone "nonDerivativeTable"]
  ∧ is_ok (load_data (sample_get site_with_index) sample_soup sample_xml
             [("ABC", "0000123456"); ("XYZ", "0000654321")]
             "https://sec.test" "/cgi-bin/browse?CIK=" ∅) = false.
Proof.
  split; [vm_compute; reflexivity|].
  apply (load_data_aborts_on_failure (sample_get site_with_index) sample_soup
           sample_xml "https://sec.test" "/cgi-bin/browse?CIK=" ∅
           [("ABC", "0000123456"); ("XYZ", "0000654321")] "XYZ" "0000654321").
  - apply list_elem_of_further, list_elem_of_here.
  - left. vm_compute. reflexivity.
Defined.

Lemma load_data_rows_of_registry_witness :
  ∃ cik_name cik,
    (cik_name, cik) ∈ [("ABC", "0000123456"); ("XYZ", "0000654321")]
    ∧ row_of_entity cik_name sample_row_xyz.
Proof.
  apply (load_data_rows_of_registry (sample_get site_two_entities) sample_soup
           sample_xml "https://sec.test" "/cgi-bin/browse?CIK=" ∅
           [("ABC", "0000123456"); ("XYZ", "0000654321")]
           [ sample_row_xyz;
             sample_row "Common Stock" VNone "nonDerivativeTable" ]).
  - vm_compute. reflexivity.
  - apply list_elem_of_here.
Defined.
